(** * genkit-aws: the CloudWatch metric buffer of [pkg/monitoring]

    A shallow embedding of [pkg/monitoring/cloudwatch.go],
    [pkg/monitoring/config.go] and [internal/constants], and the properties
    of buffering, flushing, batching, lifecycle and error classification
    that hold of them; with them the configuration of [pkg/bedrock] and
    the construction of the plugin that builds the monitor.

    Conventions of the embedding:
    - a Go [error] is an [option string]: [None] is [nil], [Some msg] is a
      non-nil error whose [Error()] text is [msg];
    - an operation that can panic at run time ([NewCloudWatch], [Close],
      the plugin's [Init]) returns an [option]: [None] is the panic;
    - a Go [string] is a byte string; [strings.ToLower] maps the bytes
      'A'..'Z' of ASCII text to 'a'..'z', and what it does to other text
      (folding by the Unicode tables) is a parameter ([UnicodeFolding]);
    - a Go [map[string]string] is a [gmap string string]; a nil map is
      [None]. The order in which [range] visits a map is not specified by
      Go, so it is a parameter ([MapIteration]) of which only "every entry
      exactly once" is known;
    - the CloudWatch service behind [client.PutMetricData] is a parameter
      ([CloudWatchAPI]): any state type with any transition function. The
      client keeps, as ghost state, the list of the calls made with their
      outcome;
    - [time.Now()] readings are passed to the operation that takes them;
    - the [float64] values stored in a datum are all conversions of
      integers ([1.0], [float64(tokensUsed)], [float64(d.Milliseconds())]);
      the datum records that integer;
    - goroutines are not run by the operation that spawns them: spawning is
      recorded in the state, and the goroutine bodies are operations of
      their own. An operation of the embedding runs without interleaving. *)

From Stdlib Require Import ZArith Lia String Ascii List.
From Stdlib Require PrimFloat.
From stdpp Require Import gmap strings list fin_maps.
From Equations Require Import Equations.

Set Default Proof Using "Type".

(** ** Go base types *)

Definition error : Type := option string.

Definition errors_New (text : string) : error := Some text.

(** [time.Time] as nanoseconds since the epoch, [time.Duration] as
    nanoseconds. *)
Definition Time : Type := Z.
Definition Duration : Type := Z.

(** [Duration.Milliseconds]: integer division truncating toward zero. *)
Definition Milliseconds (d : Duration) : Z := Z.quot d 1000000%Z.

(** ** [internal/constants] *)

Module constants.
Definition DefaultNamespace : string := "GenKit/AWS".
Definition DefaultBufferSize : Z := 20%Z.
Definition MetricFlushInterval : Duration := (30 * 1000000000)%Z.
Definition MaxMetricsPerRequest : nat := 20.
Definition MaxRetries : Z := 3%Z.
End constants.

(** ** [strings.ToLower] and [strings.Contains]

    [strings.ToLower(s)] first scans the bytes of [s]. When all of them are
    below 128 it returns [s] with the bytes 'A'..'Z' replaced by 'a'..'z'.
    Otherwise it returns [strings.Map(unicode.ToLower, s)], which decodes
    [s] as UTF-8 (an invalid byte becomes U+FFFD) and folds each rune by the
    Unicode tables: that part of the library is a parameter
    ([UnicodeFolding]) of which nothing is assumed.
    [strings.Contains(s, substr)] holds when [substr] occurs in [s] as a
    run of bytes; the empty string occurs in every string. *)

Class UnicodeFolding := strings_Map_unicode_ToLower : string -> string.

Definition lower_byte (c : ascii) : ascii :=
  let n := N_of_ascii c in
  if ((65 <=? n) && (n <=? 90))%N then ascii_of_N (n + 32) else c.

(** All bytes are below [utf8.RuneSelf]. *)
Fixpoint isASCII (s : string) : bool :=
  match s with
  | EmptyString => true
  | String c s' => (N_of_ascii c <? 128)%N && isASCII s'
  end.

Fixpoint lower_bytes (s : string) : string :=
  match s with
  | EmptyString => EmptyString
  | String c s' => String (lower_byte c) (lower_bytes s')
  end.

Definition strings_ToLower `{UnicodeFolding} (s : string) : string :=
  if isASCII s then lower_bytes s else strings_Map_unicode_ToLower s.

(** A folding to run the operations on; the runs below classify ASCII text
    only, which never reaches it. *)
Definition keepNonASCII : UnicodeFolding := fun s => s.

Fixpoint strings_HasPrefix (s prefix : string) : bool :=
  match prefix with
  | EmptyString => true
  | String p prefix' =>
      match s with
      | EmptyString => false
      | String c s' => Ascii.eqb c p && strings_HasPrefix s' prefix'
      end
  end.

Fixpoint strings_Contains (s substr : string) : bool :=
  strings_HasPrefix s substr
  || match s with
     | EmptyString => false
     | String _ s' => strings_Contains s' substr
     end.

(** ** The error classifier (cloudwatch.go, [contains] and [getErrorType]) *)

Definition contains `{UnicodeFolding} (s substr : string) : bool :=
  strings_Contains (strings_ToLower s) (strings_ToLower substr).

Definition getErrorType `{UnicodeFolding} (err : error) : string :=
  match err with
  | None => "Unknown"
  | Some errStr =>
      if contains errStr "timeout" then "Timeout"
      else if contains errStr "connection" then "Connection"
      else if contains errStr "auth" then "Authentication"
      else if contains errStr "throttle" then "Throttling"
      else if contains errStr "rate" then "RateLimit"
      else "GenericError"
  end.

(** The classifier in the words of the specification: an ordered list of
    keyword -> category rules, the first rule whose keyword occurs in the
    text (case-insensitively) wins. It is compared with [getErrorType]
    below. *)
Definition classify_rules : list (string * string) :=
  [ ("timeout", "Timeout");
    ("connection", "Connection");
    ("auth", "Authentication");
    ("throttle", "Throttling");
    ("rate", "RateLimit") ].

Definition classify_spec `{UnicodeFolding} (err : error) : string :=
  match err with
  | None => "Unknown"
  | Some text =>
      match List.find (fun rule => contains text (fst rule)) classify_rules with
      | Some rule => snd rule
      | None => "GenericError"
      end
  end.

(** ** [Config] (config.go) *)

Record Config := mkConfig {
  Namespace : string;
  EnableFlowMetrics : bool;
  EnableModelMetrics : bool;
  EnableXRayTracing : bool;
  CustomDimensions : option (gmap string string);
  MetricBufferSize : Z
}.

Definition Validate (c : Config) : error :=
  if String.eqb (Namespace c) EmptyString then errors_New "namespace is required"
  else if (MetricBufferSize c <? 0)%Z then
    errors_New "metric_buffer_size must be non-negative"
  else None.

(** [SetDefaults] updates the configuration in place; here it returns the
    updated configuration. *)
Definition SetDefaults (c : Config) : Config :=
  let ns := if String.eqb (Namespace c) EmptyString then constants.DefaultNamespace
            else Namespace c in
  let enable :=
    if negb (EnableFlowMetrics c) && negb (EnableModelMetrics c)
       && negb (EnableXRayTracing c) then true
    else if EnableXRayTracing c && negb (EnableFlowMetrics c)
            && negb (EnableModelMetrics c) then true
    else false in
  let flow := if enable then true else EnableFlowMetrics c in
  let model := if enable then true else EnableModelMetrics c in
  let size := if (MetricBufferSize c =? 0)%Z then constants.DefaultBufferSize
              else MetricBufferSize c in
  let custom := match CustomDimensions c with
                | None => Some ∅
                | Some m => Some m
                end in
  {| Namespace := ns;
     EnableFlowMetrics := flow;
     EnableModelMetrics := model;
     EnableXRayTracing := EnableXRayTracing c;
     CustomDimensions := custom;
     MetricBufferSize := size |}.

(** ** CloudWatch data ([service/cloudwatch/types])

    Two Go fields are both called [Value]; the one of [MetricDatum] is
    [MetricValue] here, and [PutMetricDataInput.Namespace] is
    [InputNamespace]. *)

Record Dimension := mkDimension {
  Name : string;
  Value : string
}.

Inductive StandardUnit := StandardUnitCount.

Record MetricDatum := mkMetricDatum {
  MetricName : string;
  MetricValue : Z;
  Unit : StandardUnit;
  Timestamp : Time;
  Dimensions : list Dimension
}.

Record PutMetricDataInput := mkInput {
  InputNamespace : string;
  MetricData : list MetricDatum
}.

#[global] Instance Dimension_eq_dec : EqDecision Dimension.
Proof. solve_decision. Defined.
#[global] Instance StandardUnit_eq_dec : EqDecision StandardUnit.
Proof. solve_decision. Defined.
#[global] Instance MetricDatum_eq_dec : EqDecision MetricDatum.
Proof. solve_decision. Defined.

(** ** The sink: the CloudWatch service behind [client.PutMetricData]

    A call moves the service from one state to another and answers with an
    error or nil. Nothing else is assumed about it. *)

Class CloudWatchAPI (S : Type) :=
  PutMetricData : S -> PutMetricDataInput -> S * error.

(** One call to the service, as the ghost log of the client keeps it. *)
Definition Call : Type := PutMetricDataInput * error.

Record Client (S : Type) := mkClient {
  service : S;
  calls : list Call
}.
Arguments mkClient {S}.
Arguments service {S}.
Arguments calls {S}.

Definition Client_PutMetricData {S} `{CloudWatchAPI S}
    (c : Client S) (input : PutMetricDataInput) : Client S * error :=
  let '(s', err) := PutMetricData (service c) input in
  ({| service := s'; calls := calls c ++ [(input, err)] |}, err).

(** The batches of the calls that the service confirmed (answered nil). *)
Definition delivered (cs : list Call) : list (list MetricDatum) :=
  MetricData ∘ fst <$> filter (fun c => snd c = None) cs.

(** A scripted service, to run the operations on: its state is the list of
    the answers still to give, one per call; once the script is used up it
    answers nil. *)
Definition Script : Type := list error.

#[global] Instance scripted : CloudWatchAPI Script :=
  fun s _ => match s with
             | [] => ([], None)
             | answer :: s' => (s', answer)
             end.

(** ** The [CloudWatch] instance *)

Inductive Ticker :=
| TickerRunning (interval : Duration)
| TickerStopped.

Inductive Chan := ChanOpen | ChanClosed.

Record CloudWatch (S : Type) := mkCloudWatch {
  client : Client S;
  config : Config;
  namespace : string;
  metricBuffer : list MetricDatum;
  bufferTicker : Ticker;
  stopCh : Chan;
  (** [go cw.flushLoop(ctx)] was started *)
  flushLoopStarted : bool;
  (** flush goroutines spawned by [putMetric] that have not run yet *)
  spawnedFlushes : nat
}.
Arguments mkCloudWatch {S}.
Arguments client {S}.
Arguments config {S}.
Arguments namespace {S}.
Arguments metricBuffer {S}.
Arguments bufferTicker {S}.
Arguments stopCh {S}.
Arguments flushLoopStarted {S}.
Arguments spawnedFlushes {S}.

Inductive Lifecycle := Running | Stopped.

(** The instance is running while its stop channel is open and its ticker
    and background loop are started. *)
Definition lifecycle {S} (cw : CloudWatch S) : Lifecycle :=
  match stopCh cw, bufferTicker cw, flushLoopStarted cw with
  | ChanOpen, TickerRunning _, true => Running
  | _, _, _ => Stopped
  end.

Definition set_metricBuffer {S} (b : list MetricDatum) (cw : CloudWatch S)
    : CloudWatch S :=
  mkCloudWatch (client cw) (config cw) (namespace cw) b (bufferTicker cw)
               (stopCh cw) (flushLoopStarted cw) (spawnedFlushes cw).

Definition set_client {S} (c : Client S) (cw : CloudWatch S) : CloudWatch S :=
  mkCloudWatch c (config cw) (namespace cw) (metricBuffer cw) (bufferTicker cw)
               (stopCh cw) (flushLoopStarted cw) (spawnedFlushes cw).

Definition set_spawnedFlushes {S} (n : nat) (cw : CloudWatch S) : CloudWatch S :=
  mkCloudWatch (client cw) (config cw) (namespace cw) (metricBuffer cw)
               (bufferTicker cw) (stopCh cw) (flushLoopStarted cw) n.

(** [m[i:j]] for [i <= j <= len(m)], the only way the code slices. *)
Definition slice {A} (m : list A) (i j : nat) : list A := take (j - i) (drop i m).

(** Lines 179-184 of [flushMetrics]: the batch that starts at index [i],
    [metricsToSend[i:end]] with [end] the smaller of
    [i + maxMetricsPerRequest] and [len(metricsToSend)]. *)
Definition batchEnd (len i : nat) : nat :=
  let end_ := i + constants.MaxMetricsPerRequest in
  if decide (len < end_) then len else end_.

Definition batchAt (metricsToSend : list MetricDatum) (i : nat)
    : list MetricDatum :=
  slice metricsToSend i (batchEnd (length metricsToSend) i).

(** *** The critical sections of [bufferMutex] *)

(** [cw.metricBuffer = append(cw.metricBuffer, ms...)] *)
Definition appendBuffer {S} (ms : list MetricDatum) (cw : CloudWatch S)
    : CloudWatch S :=
  set_metricBuffer (metricBuffer cw ++ ms) cw.

(** flushMetrics, lines 165-169: copy the buffer out and truncate it. *)
Definition swapBuffer {S} (cw : CloudWatch S) : list MetricDatum * CloudWatch S :=
  (metricBuffer cw, set_metricBuffer [] cw).

(** ** Iteration over a Go map *)

Class MapIteration := {
  mapRange : gmap string string -> list (string * string);
  mapRange_perm : forall m, mapRange m ≡ₚ map_to_list m
}.

(** One admissible order, to run the operations on. *)
#[global] Instance canonical_order : MapIteration :=
  {| mapRange := map_to_list; mapRange_perm := fun m => reflexivity _ |}.

(** [for name, value := range m] over a possibly nil map. *)
Definition rangeOf `{MapIteration} (m : option (gmap string string))
    : list (string * string) :=
  match m with
  | None => []
  | Some m => mapRange m
  end.

Section Operations.
Context {S : Type} `{CloudWatchAPI S} `{MapIteration} `{UnicodeFolding}.

(** *** [putMetric] *)
Definition putMetric (now : Time) (metricName : string) (value : Z)
    (dimensions : list Dimension) (cw : CloudWatch S) : CloudWatch S :=
  let metric := {| MetricName := metricName;
                   MetricValue := value;
                   Unit := StandardUnitCount;
                   Timestamp := now;
                   Dimensions := dimensions |} in
  let cw := appendBuffer [metric] cw in
  if (MetricBufferSize (config cw) <=? Z.of_nat (length (metricBuffer cw)))%Z
  then set_spawnedFlushes (Datatypes.S (spawnedFlushes cw)) cw
  else cw.

(** *** [flushMetrics]

    The loop of lines 178-196 from index [i] on; it ends because [i]
    grows by [MaxMetricsPerRequest] at each turn. *)
Equations flushMetrics_loop (metricsToSend : list MetricDatum) (i : nat)
    (cw : CloudWatch S) : error * CloudWatch S
    by wf (length metricsToSend - i) lt :=
  flushMetrics_loop metricsToSend i cw
    with lt_dec i (length metricsToSend) := {
    | right _ => (None, cw)
    | left _
        with Client_PutMetricData (client cw)
               {| InputNamespace := namespace cw;
                  MetricData :=
                    batchAt metricsToSend i |} := {
        | (c', Some err) =>
            (Some err,
             appendBuffer (batchAt metricsToSend i) (set_client c' cw))
        | (c', None) =>
            flushMetrics_loop metricsToSend
              (i + constants.MaxMetricsPerRequest) (set_client c' cw) } }.
Next Obligation. unfold constants.MaxMetricsPerRequest. lia. Qed.

Definition flushMetrics (cw : CloudWatch S) : error * CloudWatch S :=
  let '(metricsToSend, cw) := swapBuffer cw in
  if decide (length metricsToSend = 0) then (None, cw)
  else flushMetrics_loop metricsToSend 0 cw.

(** *** The goroutines *)

(** The body of the goroutine that [putMetric] spawns: one flush, its
    error dropped. It runs only if one was spawned. *)
Definition runSpawnedFlush (cw : CloudWatch S) : CloudWatch S :=
  match spawnedFlushes cw with
  | O => cw
  | Datatypes.S n => snd (flushMetrics (set_spawnedFlushes n cw))
  end.

(** One turn of [flushLoop] taking the ticker branch of its [select]. *)
Definition flushLoop_tick (cw : CloudWatch S) : CloudWatch S :=
  snd (flushMetrics cw).

(** *** [NewCloudWatch] and [Close] *)

(** Lines 36-46 of [NewCloudWatch] once the buffer is allocated: the struct
    literal, the ticker and the background loop, for the configuration on
    which [SetDefaults] has run. [svc] is the service that the client built
    from [awsCfg] talks to. *)
Definition newInstance (svc : S) (config : Config) : CloudWatch S :=
  {| client := {| service := svc; calls := [] |};
     config := config;
     namespace := Namespace config;
     metricBuffer := [];
     bufferTicker := TickerRunning constants.MetricFlushInterval;
     stopCh := ChanOpen;
     flushLoopStarted := true;
     spawnedFlushes := 0 |}.

(** [make([]types.MetricDatum, 0, config.MetricBufferSize)] on line 40
    panics at run time when the capacity is negative, which [SetDefaults]
    leaves as it is: [NewCloudWatch] then has no result ([None]), and
    neither the ticker nor the loop was started. [int] is unbounded here,
    so the limit of what the allocator grants is not part of the embedding. *)
Definition NewCloudWatch (svc : S) (config : Config)
    : option (CloudWatch S * error) :=
  let config := SetDefaults config in
  if (MetricBufferSize config <? 0)%Z then None
  else Some (newInstance svc config, None).

(** [close(cw.stopCh); cw.bufferTicker.Stop()] *)
Definition stop (cw : CloudWatch S) : CloudWatch S :=
  mkCloudWatch (client cw) (config cw) (namespace cw) (metricBuffer cw)
               TickerStopped ChanClosed (flushLoopStarted cw)
               (spawnedFlushes cw).

(** [close(cw.stopCh)] panics on a channel that is closed already: [Close]
    then has no result ([None]). *)
Definition Close (cw : CloudWatch S) : option (error * CloudWatch S) :=
  match stopCh cw with
  | ChanClosed => None
  | ChanOpen => Some (flushMetrics (stop cw))
  end.

(** *** [buildDimensions] and the GenKit hooks *)

Definition toDimension (kv : string * string) : Dimension :=
  {| Name := fst kv; Value := snd kv |}.

Definition buildDimensions (cw : CloudWatch S) (dimensions : gmap string string)
    : list Dimension :=
  (toDimension <$> rangeOf (CustomDimensions (config cw)))
  ++ (toDimension <$> mapRange dimensions).

Definition OnFlowStart (now : Time) (flowName : string) (cw : CloudWatch S)
    : CloudWatch S :=
  if negb (EnableFlowMetrics (config cw)) then cw
  else
    let dimensions := buildDimensions cw {[ "FlowName" := flowName ]} in
    putMetric now "FlowStarted" 1 dimensions cw.

Definition OnFlowEnd (now1 now2 : Time) (flowName : string)
    (duration : Duration) (cw : CloudWatch S) : CloudWatch S :=
  if negb (EnableFlowMetrics (config cw)) then cw
  else
    let dimensions :=
      buildDimensions cw
        (<[ "Status" := "Success" ]> {[ "FlowName" := flowName ]}) in
    let cw := putMetric now1 "FlowCompleted" 1 dimensions cw in
    putMetric now2 "FlowDuration" (Milliseconds duration) dimensions cw.

Definition OnFlowError (now1 now2 : Time) (flowName : string)
    (duration : Duration) (err : error) (cw : CloudWatch S) : CloudWatch S :=
  if negb (EnableFlowMetrics (config cw)) then cw
  else
    let dimensions :=
      buildDimensions cw
        (<[ "ErrorType" := getErrorType err ]>
           (<[ "Status" := "Error" ]> {[ "FlowName" := flowName ]})) in
    let cw := putMetric now1 "FlowError" 1 dimensions cw in
    putMetric now2 "FlowDuration" (Milliseconds duration) dimensions cw.

Definition OnGenerate (now1 now2 now3 : Time) (modelID : string)
    (tokensUsed : Z) (duration : Duration) (cw : CloudWatch S)
    : CloudWatch S :=
  if negb (EnableModelMetrics (config cw)) then cw
  else
    let dimensions := buildDimensions cw {[ "ModelID" := modelID ]} in
    let cw := putMetric now1 "TokensUsed" tokensUsed dimensions cw in
    let cw := putMetric now2 "GenerationDuration" (Milliseconds duration)
                dimensions cw in
    putMetric now3 "GenerationCount" 1 dimensions cw.
End Operations.

(** ** The batches of one flush pass

    The slices that the loop of [flushMetrics] cuts from index [i] on, in
    the order in which it reaches them: the loop with the call to the
    service left out. *)
Equations batchesFrom (metricsToSend : list MetricDatum) (i : nat)
    : list (list MetricDatum) by wf (length metricsToSend - i) lt :=
  batchesFrom metricsToSend i with lt_dec i (length metricsToSend) := {
    | left _ =>
        batchAt metricsToSend i
          :: batchesFrom metricsToSend (i + constants.MaxMetricsPerRequest)
    | right _ => [] }.
Next Obligation. unfold constants.MaxMetricsPerRequest. lia. Qed.

(** The log entries of calls that sent the batches [bs] under the namespace
    [ns] and were confirmed, and the entry of a call that failed with the
    error text [e]. *)
Definition okCalls (ns : string) (bs : list (list MetricDatum)) : list Call :=
  (fun b => (mkInput ns b, None)) <$> bs.

Definition failedCall (ns : string) (b : list MetricDatum) (e : string) : Call :=
  (mkInput ns b, Some e).

(** What an operation leaves alone in the instance when it only touches the
    buffer and the client. *)
Definition sameSettings {S} (cw cw' : CloudWatch S) : Prop :=
  config cw' = config cw /\ namespace cw' = namespace cw
  /\ bufferTicker cw' = bufferTicker cw /\ stopCh cw' = stopCh cw
  /\ flushLoopStarted cw' = flushLoopStarted cw
  /\ spawnedFlushes cw' = spawnedFlushes cw.

(** ** Histories of the buffer

    The operations that take [bufferMutex], as events: an append (by
    [putMetric], or by [flushMetrics] putting a failed batch back) and the
    swap at the start of [flushMetrics]. The lock serialises them, so a
    history of the buffer is a list of events. *)
Inductive BufferOp :=
| OpAppend (ms : list MetricDatum)
| OpSwap.

(** Run a history on an instance: the final instance and what each swap
    returned, in order. *)
Fixpoint runOps {S} (ops : list BufferOp) (cw : CloudWatch S)
    : CloudWatch S * list (list MetricDatum) :=
  match ops with
  | [] => (cw, [])
  | OpAppend ms :: ops' => runOps ops' (appendBuffer ms cw)
  | OpSwap :: ops' =>
      let '(out, cw) := swapBuffer cw in
      let '(cw', outs) := runOps ops' cw in
      (cw', out :: outs)
  end.

(** Everything that a history appends, in order. *)
Fixpoint appended (ops : list BufferOp) : list MetricDatum :=
  match ops with
  | [] => []
  | OpAppend ms :: ops' => ms ++ appended ops'
  | OpSwap :: ops' => appended ops'
  end.

(** The calls made between an earlier state [cw] and a later one [cw'], and
    the batches that a list of calls carried. *)
Definition newCalls {S} (cw cw' : CloudWatch S) : list Call :=
  drop (length (calls (client cw))) (calls (client cw')).

Definition batchesOf (cs : list Call) : list (list MetricDatum) :=
  MetricData ∘ fst <$> cs.

(** The points that entered the buffer between an earlier state [cw] and a
    later one [cw'] of which the buffer was not swapped in between. *)
Definition emitted {S} (cw cw' : CloudWatch S) : list MetricDatum :=
  drop (length (metricBuffer cw)) (metricBuffer cw').

(** ** Runs on the scripted service

    [started cfg script] is the instance that [NewCloudWatch] returns for
    [cfg], whose buffer size is not negative, over the service that answers
    by [script] (lemma [NewCloudWatch_started]); [afterFlowStarts n cw]
    is [cw] after [n] calls of [OnFlowStart] for the flow "f", the k-th at
    time k, none of the spawned goroutines having run. *)
Definition started (cfg : Config) (script : Script) : CloudWatch Script :=
  newInstance script (SetDefaults cfg).

Definition afterFlowStarts (n : nat) (cw : CloudWatch Script)
    : CloudWatch Script :=
  fold_left (fun cw k => OnFlowStart (Z.of_nat k) "f" cw) (seq 0 n) cw.

(** The point that the k-th of these calls appends when there are no custom
    dimensions. *)
Definition flowStarted (k : nat) : MetricDatum :=
  {| MetricName := "FlowStarted";
     MetricValue := 1;
     Unit := StandardUnitCount;
     Timestamp := Z.of_nat k;
     Dimensions := [ {| Name := "FlowName"; Value := "f" |} ] |}.

(** A configuration with the namespace "App", flow and model metrics on,
    no custom dimensions and a buffer size of 50. *)
Definition appConfig : Config :=
  {| Namespace := "App";
     EnableFlowMetrics := true;
     EnableModelMetrics := true;
     EnableXRayTracing := false;
     CustomDimensions := None;
     MetricBufferSize := 50 |}.

(** Configurations with one kind of metrics switched off, and one whose
    custom dimensions use the key "FlowName". *)
Definition modelOnlyConfig : Config :=
  {| Namespace := "App";
     EnableFlowMetrics := false;
     EnableModelMetrics := true;
     EnableXRayTracing := false;
     CustomDimensions := Some {[ "Environment" := "prod" ]};
     MetricBufferSize := 50 |}.

Definition flowOnlyConfig : Config :=
  {| Namespace := "App";
     EnableFlowMetrics := true;
     EnableModelMetrics := false;
     EnableXRayTracing := false;
     CustomDimensions := Some {[ "Environment" := "prod" ]};
     MetricBufferSize := 50 |}.

Definition clashingConfig : Config :=
  {| Namespace := "App";
     EnableFlowMetrics := true;
     EnableModelMetrics := true;
     EnableXRayTracing := false;
     CustomDimensions := Some {[ "FlowName" := "checkout" ]};
     MetricBufferSize := 50 |}.

(** ** Several submissions in a row

    The arguments of one call of [putMetric], and a run of such calls with
    no flush in between. *)
Record PutMetricArgs := mkPutMetricArgs {
  argNow : Time;
  argName : string;
  argValue : Z;
  argDimensions : list Dimension
}.

Definition datumOf (a : PutMetricArgs) : MetricDatum :=
  {| MetricName := argName a;
     MetricValue := argValue a;
     Unit := StandardUnitCount;
     Timestamp := argNow a;
     Dimensions := argDimensions a |}.

Definition putMetrics {S} (args : list PutMetricArgs) (cw : CloudWatch S)
    : CloudWatch S :=
  fold_left
    (fun cw a => putMetric (argNow a) (argName a) (argValue a)
                   (argDimensions a) cw)
    args cw.

(** ** [pkg/bedrock/config.go]

    [float64] is the kernel's binary64 type with its IEEE comparisons. A
    pointer to a [ModelConfig] that may be nil is an [option]; the entries of the map
    [ModelConfigs] are taken to be non-nil (on a nil entry [Validate] and
    [mergeWithDefaults] dereference nil and panic). A nil slice or map and
    an empty one are not told apart by this code. *)
Module bedrock.
Import PrimFloat.

(** [constants.DefaultMaxTokens], [DefaultTemperature] (0.7) and
    [DefaultTopP] (0.9), the last two as the nearest binary64 values. *)
Definition DefaultMaxTokens : Z := 4096%Z.
Definition DefaultTemperature : float := 0x1.6666666666666p-1%float.
Definition DefaultTopP : float := 0x1.ccccccccccccdp-1%float.

Record ModelConfig := mkModelConfig {
  MaxTokens : Z;
  Temperature : float;
  TopP : float;
  StopSequences : list string
}.

Record Config := mkConfig {
  Models : list string;
  ModelConfigs : gmap string ModelConfig;
  DefaultModelConfig : option ModelConfig
}.

(** The order in which [range] visits [ModelConfigs]. *)
Class ModelConfigIteration := {
  rangeModelConfigs : gmap string ModelConfig -> list (string * ModelConfig);
  rangeModelConfigs_perm : forall m, rangeModelConfigs m ≡ₚ map_to_list m
}.

#[global] Instance canonical_model_order : ModelConfigIteration :=
  {| rangeModelConfigs := map_to_list;
     rangeModelConfigs_perm := fun m => reflexivity _ |}.

(** [for _, x := range l { if err := check(x); err != nil { return err } }] *)
Fixpoint firstError {A} (check : A -> error) (l : list A) : error :=
  match l with
  | [] => None
  | x :: l' =>
      match check x with
      | Some e => Some e
      | None => firstError check l'
      end
  end.

(** [ModelConfig.Validate] *)
Definition ModelConfig_Validate (mc : ModelConfig) : error :=
  if (MaxTokens mc <? 0)%Z then errors_New "max_tokens must be non-negative"
  else if (Temperature mc <? 0)%float || (1 <? Temperature mc)%float then
    errors_New "temperature must be between 0.0 and 1.0"
  else if (TopP mc <? 0)%float || (1 <? TopP mc)%float then
    errors_New "top_p must be between 0.0 and 1.0"
  else None.

(** [Config.Validate] *)
Definition Validate `{ModelConfigIteration} (c : Config) : error :=
  if decide (length (Models c) = 0) then
    errors_New "at least one model must be specified"
  else
    match firstError
            (fun modelID : string =>
               if String.eqb modelID EmptyString
               then errors_New "model ID cannot be empty" else None)
            (Models c) with
    | Some e => Some e
    | None =>
        match firstError
                (fun entry : string * ModelConfig =>
                   match ModelConfig_Validate entry.2 with
                   | Some e =>
                       Some ("invalid config for model " +:+ entry.1
                             +:+ ": " +:+ e)
                   | None => None
                   end)
                (rangeModelConfigs (ModelConfigs c)) with
        | Some e => Some e
        | None =>
            match DefaultModelConfig c with
            | Some d =>
                match ModelConfig_Validate d with
                | Some e => Some ("invalid default model config: " +:+ e)
                | None => None
                end
            | None => None
            end
        end
    end.

(** [Config.mergeWithDefaults] *)
Definition mergeWithDefaults (c : Config) (config : ModelConfig) : ModelConfig :=
  match DefaultModelConfig c with
  | None => config
  | Some d =>
      {| MaxTokens := if (MaxTokens config =? 0)%Z then MaxTokens d
                      else MaxTokens config;
         Temperature := if (Temperature config =? 0)%float then Temperature d
                        else Temperature config;
         TopP := if (TopP config =? 0)%float then TopP d else TopP config;
         StopSequences := if decide (length (StopSequences config) = 0)
                          then StopSequences d else StopSequences config |}
  end.

(** [Config.ModelConfig]: the settings for one model ID. *)
Definition Config_ModelConfig (c : Config) (modelID : string) : ModelConfig :=
  match ModelConfigs c !! modelID with
  | Some config => mergeWithDefaults c config
  | None =>
      match DefaultModelConfig c with
      | Some d => d
      | None =>
          {| MaxTokens := DefaultMaxTokens;
             Temperature := DefaultTemperature;
             TopP := DefaultTopP;
             StopSequences := [] |}
      end
  end.

(** A configuration to run the operations on: one model with settings of
    its own that leave the token limit and the stop sequences unset, and
    default settings. *)
Definition sampleModelID : string := "anthropic.claude-3-sonnet-20240229-v1:0".

Definition sampleConfig : Config :=
  {| Models := [sampleModelID];
     ModelConfigs :=
       {[ sampleModelID :=
            {| MaxTokens := 0; Temperature := 0.5%float; TopP := 0%float;
               StopSequences := [] |} ]};
     DefaultModelConfig :=
       Some {| MaxTokens := 1024; Temperature := 0.25%float;
               TopP := 0.75%float; StopSequences := ["END"] |} |}.

(** [pkg/bedrock]: the client and the model handles it gives out. The
    Bedrock runtime behind the client is not part of the embedding. *)
Record Client := mkClient {
  config : Config
}.

(** [NewClient] *)
Definition NewClient (config : Config) : Client * error :=
  ({| config := config |}, None).

Record Model := mkModel {
  client : Client;
  modelID : string;
  modelConfig : ModelConfig
}.

(** [Client.Model] *)
Definition Client_Model (c : Client) (modelID : string) : Model :=
  {| client := c;
     modelID := modelID;
     modelConfig := Config_ModelConfig (config c) modelID |}.
End bedrock.

(** ** The plugin (package [genkitaws]: [Config.Validate], [New], [Init],
    [GetMonitor])

    [AWSConfigOptions] and the loading of the AWS configuration are outside
    the embedding: [Init] takes what [AWSConfig] returned, the service that
    the loaded configuration reaches and an error. A panic, of [Init] itself
    or of [NewCloudWatch] under it, is [None]. *)
Module genkitaws.
Local Abbreviation MonitoringConfig := Config.
Local Abbreviation Monitor := CloudWatch.
Local Abbreviation monitoring_Validate := Validate.

Record Config := mkConfig {
  Region : string;
  Profile : string;
  Bedrock : option bedrock.Config;
  CloudWatch : option MonitoringConfig
}.

(** [&Config{}] *)
Definition zeroConfig : Config :=
  {| Region := EmptyString; Profile := EmptyString;
     Bedrock := None; CloudWatch := None |}.

Definition Validate `{bedrock.ModelConfigIteration} (c : Config) : error :=
  if String.eqb (Region c) EmptyString then errors_New "region is required"
  else
    match match Bedrock c with
          | Some b => bedrock.Validate b
          | None => None
          end with
    | Some e => Some ("bedrock config invalid: " +:+ e)
    | None =>
        match match CloudWatch c with
              | Some m => monitoring_Validate m
              | None => None
              end with
        | Some e => Some ("cloudwatch config invalid: " +:+ e)
        | None => None
        end
    end.

Record Plugin (S : Type) := mkPlugin {
  config : Config;
  bedrock : option bedrock.Client;
  monitor : option (Monitor S)
}.
Arguments mkPlugin {S}.
Arguments config {S}.
Arguments bedrock {S}.
Arguments monitor {S}.

Definition New {S} `{bedrock.ModelConfigIteration} (config : option Config)
    : option (Plugin S) * error :=
  let config := match config with
                | None => zeroConfig
                | Some c => c
                end in
  match Validate config with
  | Some e => (None, Some ("invalid genkit-aws config: " +:+ e))
  | None => (Some {| config := config; bedrock := None; monitor := None |},
             None)
  end.

(** [NewCloudWatch] applies [SetDefaults] to the CloudWatch configuration
    in place, so after [Init] the configuration of the plugin holds it with
    the defaults applied. *)
Definition Init {S} (aws : S * error) (p : Plugin S) : option (Plugin S) :=
  match aws.2 with
  | Some _ => None
  | None =>
      match match Bedrock (config p) with
            | Some b =>
                match bedrock.NewClient b with
                | (_, Some _) => None
                | (client, None) => Some (Some client)
                end
            | None => Some (bedrock p)
            end with
      | None => None
      | Some bedrockClient =>
          match CloudWatch (config p) with
          | Some m =>
              match NewCloudWatch aws.1 m with
              | None => None
              | Some (_, Some _) => None
              | Some (monitor, None) =>
                  Some {| config :=
                            {| Region := Region (config p);
                               Profile := Profile (config p);
                               Bedrock := Bedrock (config p);
                               CloudWatch := Some (SetDefaults m) |};
                          bedrock := bedrockClient;
                          monitor := Some monitor |}
              end
          | None =>
              Some {| config := config p;
                      bedrock := bedrockClient;
                      monitor := monitor p |}
          end
      end
  end.

Definition GetMonitor {S} (p : Plugin S) : option (Monitor S) := monitor p.
End genkitaws.

(** A plugin configuration to run the operations on. *)
Definition sampleRegionConfig : genkitaws.Config :=
  {| genkitaws.Region := "us-east-1";
     genkitaws.Profile := EmptyString;
     genkitaws.Bedrock := Some bedrock.sampleConfig;
     genkitaws.CloudWatch := Some appConfig |}.

(** ** What a hook may change

    [appendsOnly cw cw'] holds when [cw'] differs from [cw] at most by
    points appended to the buffer and flush goroutines spawned. *)
Definition appendsOnly {S} (cw cw' : CloudWatch S) : Prop :=
  client cw' = client cw /\ config cw' = config cw
  /\ namespace cw' = namespace cw /\ bufferTicker cw' = bufferTicker cw
  /\ stopCh cw' = stopCh cw /\ flushLoopStarted cw' = flushLoopStarted cw
  /\ metricBuffer cw' = metricBuffer cw ++ emitted cw cw'
  /\ spawnedFlushes cw <= spawnedFlushes cw'.

Definition nameValueTime (p : MetricDatum) : string * Z * Time :=
  (MetricName p, MetricValue p, Timestamp p).

(** ** Runs of an instance

    The operations that can happen to an instance, one at a time: the four
    hooks, a turn of [flushLoop] on a tick, the run of a flush goroutine
    that [putMetric] spawned, and [Close]. A tick is allowed at any time,
    also after [Close], where the loop may still take a tick that was
    already waiting; a [Close] that panics leaves the instance as it is. *)
Inductive Op :=
| DoFlowStart (now : Time) (flowName : string)
| DoFlowEnd (now1 now2 : Time) (flowName : string) (duration : Duration)
| DoFlowError (now1 now2 : Time) (flowName : string) (duration : Duration)
    (err : error)
| DoGenerate (now1 now2 now3 : Time) (modelID : string) (tokensUsed : Z)
    (duration : Duration)
| DoTick
| DoSpawnedFlush
| DoClose.

Definition step {S} `{CloudWatchAPI S} `{MapIteration} `{UnicodeFolding}
    (op : Op)
    (cw : CloudWatch S) : CloudWatch S :=
  match op with
  | DoFlowStart now flowName => OnFlowStart now flowName cw
  | DoFlowEnd now1 now2 flowName duration =>
      OnFlowEnd now1 now2 flowName duration cw
  | DoFlowError now1 now2 flowName duration err =>
      OnFlowError now1 now2 flowName duration err cw
  | DoGenerate now1 now2 now3 modelID tokensUsed duration =>
      OnGenerate now1 now2 now3 modelID tokensUsed duration cw
  | DoTick => flushLoop_tick cw
  | DoSpawnedFlush => runSpawnedFlush cw
  | DoClose => match Close cw with
               | Some (_, cw') => cw'
               | None => cw
               end
  end.

Definition run {S} `{CloudWatchAPI S} `{MapIteration} `{UnicodeFolding}
    (ops : list Op)
    (cw : CloudWatch S) : CloudWatch S :=
  fold_left (fun cw op => step op cw) ops cw.

(** The metric names that the hooks use, and the dimension keys that they
    add to the custom dimensions. *)
Definition metricNames : list string :=
  ["FlowStarted"; "FlowCompleted"; "FlowDuration"; "FlowError";
   "TokensUsed"; "GenerationDuration"; "GenerationCount"].

Definition reservedKeys : list string :=
  ["FlowName"; "Status"; "ErrorType"; "ModelID"].

(** A point as a hook makes it: a known name, the unit Count, and pairwise
    different dimension keys provided that the custom dimensions of the
    configuration use none of the keys of the hooks. *)
Definition goodPoint (cfg : Config) (p : MetricDatum) : Prop :=
  MetricName p ∈ metricNames
  /\ Unit p = StandardUnitCount
  /\ ((forall k, k ∈ reservedKeys ->
                 default ∅ (CustomDimensions cfg) !! k = None) ->
      NoDup (Name <$> Dimensions p)).

(** A call as a flush pass makes it under the configuration [cfg]. *)
Definition goodCall (cfg : Config) (c : Call) : Prop :=
  InputNamespace c.1 = Namespace cfg
  /\ 0 < length (MetricData c.1) <= 20
  /\ Forall (goodPoint cfg) (MetricData c.1).

(** What holds of an instance built from the configuration [cfg] at every
    moment of a run. *)
Definition invariant {S} (cfg : Config) (cw : CloudWatch S) : Prop :=
  config cw = cfg /\ namespace cw = Namespace cfg
  /\ Forall (goodPoint cfg) (metricBuffer cw)
  /\ Forall (goodCall cfg) (calls (client cw)).

(** The points that the hooks of a run put into the buffer, in the order of
    the run, and the points of the batches that the service has confirmed. *)
Definition isHook (op : Op) : bool :=
  match op with
  | DoTick | DoSpawnedFlush | DoClose => false
  | _ => true
  end.

Definition hookPoints {S} `{CloudWatchAPI S} `{MapIteration}
    `{UnicodeFolding} (op : Op)
    (cw : CloudWatch S) : list MetricDatum :=
  if isHook op then emitted cw (step op cw) else [].

Fixpoint submitted {S} `{CloudWatchAPI S} `{MapIteration} `{UnicodeFolding}
    (ops : list Op)
    (cw : CloudWatch S) : list MetricDatum :=
  match ops with
  | [] => []
  | op :: ops' => hookPoints op cw ++ submitted ops' (step op cw)
  end.

Definition confirmed {S} (cw : CloudWatch S) : list MetricDatum :=
  concat (delivered (calls (client cw))).

(** * Properties *)

(** ** The error classifier *)

Lemma getErrorType_refines `{UnicodeFolding} (err : error) : getErrorType err = classify_spec err.
Proof.
  destruct err as [text|]; [|reflexivity].
  unfold getErrorType, classify_spec, classify_rules; simpl.
  repeat (match goal with |- context [contains text ?k] =>
            destruct (contains text k); [reflexivity|] end).
  reflexivity.
Qed.

(** C6: [getErrorType] is a total function that answers "Unknown" on nil,
    and otherwise the category of the first rule, in the order timeout,
    connection, auth, throttle, rate, whose keyword occurs in the error text
    whatever its case, and "GenericError" when no keyword occurs; its answer
    is always one of the seven names; and it classifies "connection
    refused", "request TIMEOUT" and "banana" as Connection, Timeout and
    GenericError. *)
Theorem getErrorType_classifies `{UnicodeFolding} :
  getErrorType None = "Unknown"
  /\ (forall err, getErrorType err = classify_spec err)
  /\ (forall text,
        getErrorType (Some text) ∈
          ["Timeout"; "Connection"; "Authentication"; "Throttling";
           "RateLimit"; "GenericError"])
  /\ (forall text,
        (forall rule, rule ∈ classify_rules -> contains text rule.1 = false) ->
        getErrorType (Some text) = "GenericError")
  /\ (forall text before keyword category after,
        classify_rules = before ++ (keyword, category) :: after ->
        contains text keyword = true ->
        (forall rule, rule ∈ before -> contains text rule.1 = false) ->
        getErrorType (Some text) = category)
  /\ getErrorType (Some "connection refused") = "Connection"
  /\ getErrorType (Some "request TIMEOUT") = "Timeout"
  /\ getErrorType (Some "banana") = "GenericError".
Proof.
  split; [reflexivity|].
  split; [exact getErrorType_refines|].
  split.
  { intros text. unfold getErrorType.
    repeat (match goal with |- context [contains text ?k] =>
              destruct (contains text k); [set_solver|] end).
    set_solver. }
  split.
  { intros text Hnone. rewrite getErrorType_refines. unfold classify_spec.
    destruct (List.find _ classify_rules) as [rule|] eqn:Hfind; [|reflexivity].
    apply find_some in Hfind as [Hin Hc].
    apply list_elem_of_In in Hin. rewrite (Hnone _ Hin) in Hc. discriminate. }
  split.
  { intros text before keyword category after Hrules Hk Hbefore.
    rewrite getErrorType_refines. unfold classify_spec. rewrite Hrules.
    clear Hrules. induction before as [|r before IH]; simpl.
    - rewrite Hk. reflexivity.
    - rewrite (Hbefore r) by set_solver. apply IH.
      intros rule Hin. apply Hbefore. set_solver. }
  repeat split; reflexivity.
Qed.

Section ClassifierRun.
#[local] Existing Instance keepNonASCII.

Lemma getErrorType_classifies_witness :
  classify_rules
  = [("timeout", "Timeout")] ++ ("connection", "Connection")
      :: [("auth", "Authentication"); ("throttle", "Throttling");
          ("rate", "RateLimit")]
  /\ contains "Connection reset by peer" "connection" = true
  /\ contains "Connection reset by peer" "timeout" = false
  /\ getErrorType (Some "Connection reset by peer") = "Connection"
  /\ getErrorType (Some "disk full") = "GenericError".
Proof.
  pose proof getErrorType_classifies as (_ & _ & _ & Hnone & Hfirst & _).
  split; [reflexivity|]. split; [reflexivity|]. split; [reflexivity|].
  split.
  - apply (Hfirst "Connection reset by peer" [("timeout", "Timeout")]
             "connection" "Connection"
             [("auth", "Authentication"); ("throttle", "Throttling");
              ("rate", "RateLimit")]); [reflexivity|reflexivity|].
    intros rule Hin. apply list_elem_of_singleton in Hin. subst rule.
    reflexivity.
  - apply Hnone. intros rule Hin. unfold classify_rules in Hin.
    repeat (apply elem_of_cons in Hin as [-> | Hin]; [reflexivity|]).
    apply elem_of_nil in Hin. contradiction.
Defined.

End ClassifierRun.

(** ** Batches *)

Lemma batchAt_take (ms : list MetricDatum) (i : nat) :
  batchAt ms i = take constants.MaxMetricsPerRequest (drop i ms).
Proof.
  unfold batchAt, slice, batchEnd. cbv zeta.
  destruct (decide (length ms < i + constants.MaxMetricsPerRequest)) as [Hlt|Hge].
  - rewrite !take_ge; [reflexivity| |]; rewrite length_drop; lia.
  - f_equal. lia.
Qed.

Lemma batchesFrom_step (ms : list MetricDatum) (i : nat) :
  batchesFrom ms i =
    if decide (i < length ms)
    then batchAt ms i :: batchesFrom ms (i + constants.MaxMetricsPerRequest)
    else [].
Proof.
  rewrite batchesFrom_equation_1.
  destruct (lt_dec i (length ms)) as [Hlt|Hge]; simpl.
  - rewrite decide_True by exact Hlt. reflexivity.
  - rewrite decide_False by exact Hge. reflexivity.
Qed.

Lemma batchesFrom_concat (ms : list MetricDatum) (i : nat) :
  concat (batchesFrom ms i) = drop i ms.
Proof.
  funelim (batchesFrom ms i).
  - simpl. rewrite H, batchAt_take, <- drop_drop. apply take_drop.
  - simpl. rewrite drop_ge; [reflexivity | lia].
Qed.

Lemma batchesFrom_sizes (ms : list MetricDatum) (i : nat) :
  Forall (fun b => 0 < length b <= constants.MaxMetricsPerRequest)
         (batchesFrom ms i).
Proof.
  funelim (batchesFrom ms i); [|constructor].
  constructor; [|assumption].
  rewrite batchAt_take, length_take, length_drop.
  unfold constants.MaxMetricsPerRequest. lia.
Qed.

Lemma batchesFrom_length (ms : list MetricDatum) (i : nat) :
  length (batchesFrom ms i)
  = (length ms - i + (constants.MaxMetricsPerRequest - 1))
      / constants.MaxMetricsPerRequest.
Proof.
  funelim (batchesFrom ms i).
  - cbn [length]. rewrite H. unfold constants.MaxMetricsPerRequest in *.
    change (20 - 1) with 19.
    destruct (le_lt_dec (length metricsToSend - i) 20) as [Hle|Hgt].
    + replace (length metricsToSend - (i + 20)) with 0 by lia.
      change ((0 + 19) / 20) with 0.
      apply (Nat.div_unique _ 20 1 (length metricsToSend - i - 1)); lia.
    + replace (length metricsToSend - i + 19)
        with ((length metricsToSend - (i + 20) + 19) + 1 * 20) by lia.
      rewrite Nat.div_add by lia. lia.
  - unfold constants.MaxMetricsPerRequest.
    replace (length metricsToSend - i) with 0 by lia.
    reflexivity.
Qed.

Lemma batchesFrom_lookup (ms : list MetricDatum) (k i : nat)
    (b : list MetricDatum) :
  batchesFrom ms i !! k = Some b ->
  b = take constants.MaxMetricsPerRequest
        (drop (i + constants.MaxMetricsPerRequest * k) ms).
Proof.
  revert i. induction k as [|k IH]; intros i; rewrite batchesFrom_step;
    destruct (decide (i < length ms)); simpl; try discriminate.
  - intros [= <-]. rewrite batchAt_take. do 2 f_equal. lia.
  - intros Hk. rewrite (IH _ Hk). do 2 f_equal.
    unfold constants.MaxMetricsPerRequest. lia.
Qed.

(** ** One flush pass *)

Section Flush.
Context {S : Type} `{CloudWatchAPI S}.

Lemma flushMetrics_loop_step (ms : list MetricDatum) (i : nat)
    (cw : CloudWatch S) :
  flushMetrics_loop ms i cw =
    if decide (i < length ms) then
      match Client_PutMetricData (client cw)
              (mkInput (namespace cw) (batchAt ms i)) with
      | (c', Some err) =>
          (Some err, appendBuffer (batchAt ms i) (set_client c' cw))
      | (c', None) =>
          flushMetrics_loop ms (i + constants.MaxMetricsPerRequest)
            (set_client c' cw)
      end
    else (None, cw).
Proof.
  rewrite flushMetrics_loop_equation_1.
  destruct (lt_dec i (length ms)) as [Hlt|Hge]; simpl.
  - rewrite decide_True by exact Hlt.
    destruct (Client_PutMetricData _ _) as [c' [e|]]; reflexivity.
  - rewrite decide_False by exact Hge. reflexivity.
Qed.

Lemma Client_PutMetricData_calls (c : Client S) (input : PutMetricDataInput)
    (c' : Client S) (err : error) :
  Client_PutMetricData c input = (c', err) ->
  calls c' = calls c ++ [(input, err)].
Proof.
  unfold Client_PutMetricData.
  destruct (PutMetricData (service c) input) as [s' e].
  intros [= <- <-]. reflexivity.
Qed.

Lemma sameSettings_refl (cw : CloudWatch S) : sameSettings cw cw.
Proof. repeat split. Qed.

(** The loop from index [i]: either every batch from [i] on was confirmed
    and the buffer is as it was, or the batches [sent] were confirmed, the
    next one [failed], it was appended to the buffer, and the batches
    [rest] after it were not sent. *)
Lemma flushMetrics_loop_outcome (ms : list MetricDatum) (i : nat)
    (cw : CloudWatch S) :
  let r := flushMetrics_loop ms i cw in
  sameSettings cw r.2
  /\ match r.1 with
     | None =>
         calls (client r.2)
           = calls (client cw) ++ okCalls (namespace cw) (batchesFrom ms i)
         /\ metricBuffer r.2 = metricBuffer cw
     | Some e =>
         exists sent failed rest,
           batchesFrom ms i = sent ++ failed :: rest
           /\ calls (client r.2)
              = calls (client cw) ++ okCalls (namespace cw) sent
                  ++ [failedCall (namespace cw) failed e]
           /\ metricBuffer r.2 = metricBuffer cw ++ failed
     end.
Proof.
  remember (length ms - i) as n eqn:Hn.
  revert i cw Hn. induction n as [n IH] using lt_wf_ind. intros i cw Hn.
  rewrite flushMetrics_loop_step, (batchesFrom_step ms i).
  destruct (decide (i < length ms)) as [Hlt|Hge]; simpl.
  - destruct (Client_PutMetricData _ _) as [c' [e|]] eqn:Hcall;
      apply Client_PutMetricData_calls in Hcall.
    + simpl. split; [repeat split|].
      exists [], (batchAt ms i),
        (batchesFrom ms (i + constants.MaxMetricsPerRequest)).
      repeat split. simpl. exact Hcall.
    + specialize (IH (length ms - (i + constants.MaxMetricsPerRequest))).
      specialize (IH ltac:(unfold constants.MaxMetricsPerRequest; lia)
                     (i + constants.MaxMetricsPerRequest)
                     (set_client c' cw) eq_refl).
      destruct IH as [Hsame IH]. split; [exact Hsame|].
      destruct (flushMetrics_loop ms _ _) as [[e|] cw']; simpl in *.
      * destruct IH as (sent & failed & rest & Hb & Hc & Hbuf).
        exists (batchAt ms i :: sent), failed, rest.
        split; [rewrite Hb; reflexivity|]. split; [|exact Hbuf].
        rewrite Hc, Hcall. simpl. rewrite <- !app_assoc. reflexivity.
      * destruct IH as [Hc Hbuf]. split; [|exact Hbuf].
        rewrite Hc, Hcall. simpl. rewrite <- !app_assoc. reflexivity.
  - split; [apply sameSettings_refl|]. unfold okCalls. simpl.
    rewrite app_nil_r. split; reflexivity.
Qed.

(** A whole pass over the buffer [metricBuffer cw]. *)
Lemma flushMetrics_outcome (cw : CloudWatch S) :
  let r := flushMetrics cw in
  sameSettings cw r.2
  /\ match r.1 with
     | None =>
         calls (client r.2)
           = calls (client cw)
               ++ okCalls (namespace cw) (batchesFrom (metricBuffer cw) 0)
         /\ metricBuffer r.2 = []
     | Some e =>
         exists sent failed rest,
           batchesFrom (metricBuffer cw) 0 = sent ++ failed :: rest
           /\ calls (client r.2)
              = calls (client cw) ++ okCalls (namespace cw) sent
                  ++ [failedCall (namespace cw) failed e]
           /\ metricBuffer r.2 = failed
     end.
Proof.
  unfold flushMetrics, swapBuffer.
  destruct (decide (length (metricBuffer cw) = 0)) as [Hz|Hnz].
  - simpl. split; [repeat split|].
    rewrite batchesFrom_step, decide_False by lia.
    unfold okCalls. simpl. rewrite app_nil_r. split; reflexivity.
  - exact (flushMetrics_loop_outcome (metricBuffer cw) 0
             (set_metricBuffer [] cw)).
Qed.

Lemma newCalls_app (cw cw' : CloudWatch S) (cs : list Call) :
  calls (client cw') = calls (client cw) ++ cs -> newCalls cw cw' = cs.
Proof. intros Hc. unfold newCalls. rewrite Hc. apply drop_app_length. Qed.

Lemma batchesOf_okCalls (ns : string) (bs : list (list MetricDatum)) :
  batchesOf (okCalls ns bs) = bs.
Proof.
  unfold batchesOf, okCalls. rewrite <- list_fmap_compose.
  induction bs as [|b bs IH]; simpl; [reflexivity|]. f_equal. exact IH.
Qed.

Lemma delivered_okCalls (ns : string) (bs : list (list MetricDatum)) :
  delivered (okCalls ns bs) = bs.
Proof.
  unfold delivered, okCalls.
  induction bs as [|b bs IH]; [reflexivity|].
  rewrite fmap_cons, filter_cons_True by reflexivity.
  rewrite fmap_cons. simpl. f_equal. exact IH.
Qed.
End Flush.

(** C1 at a failing input: 21 points are buffered and the service fails the
    first call only. The pass has two batches to send. It puts the 20 points
    of the first back into the buffer in their order, as the claim says, but
    then returns the error of that send at once: the first call is the only
    one it makes, and the second batch is never attempted, though the
    service would have confirmed it. *)
Theorem flushMetrics_aborts_on_failure :
  let cw := afterFlowStarts 21 (started appConfig [Some "boom"]) in
  let r := flushMetrics cw in
  batchesFrom (metricBuffer cw) 0
    = [flowStarted <$> seq 0 20; [flowStarted 20]]
  /\ r.1 = Some "boom"
  /\ metricBuffer r.2 = flowStarted <$> seq 0 20
  /\ newCalls cw r.2 = [failedCall "App" (flowStarted <$> seq 0 20) "boom"]
  /\ batchesOf (newCalls cw r.2) = [flowStarted <$> seq 0 20]
  /\ (Client_PutMetricData (client r.2) (mkInput "App" [flowStarted 20])).2
     = None.
Proof. vm_compute. repeat split; reflexivity. Qed.

(** C2 at a failing input: 21 points are buffered and the service fails the
    first call. The pass takes all 21 points; the last one is afterwards
    neither in a confirmed batch nor in the buffer. *)
Theorem flushMetrics_loses_unsent_batch :
  let cw := afterFlowStarts 21 (started appConfig [Some "boom"]) in
  let r := flushMetrics cw in
  (flowStarted 20 ∈ metricBuffer cw)
  /\ r.1 = Some "boom"
  /\ (flowStarted 20 ∉ concat (delivered (calls (client r.2))))
  /\ (flowStarted 20 ∉ metricBuffer r.2).
Proof.
  cbv zeta. split; [|split; [|split]].
  - apply (bool_decide_eq_true_1 _). vm_compute. reflexivity.
  - vm_compute. reflexivity.
  - apply (bool_decide_eq_false_1 _). vm_compute. reflexivity.
  - apply (bool_decide_eq_false_1 _). vm_compute. reflexivity.
Qed.

(** C5 at a failing input: 21 points are handed to a flush pass and the
    service fails the first call. ceil(21/20) is 2, but the pass cuts one
    batch only, the first 20 points: the batches it produced do not make up
    the 21 points it took. *)
Theorem flushMetrics_cuts_too_few_batches :
  let cw := afterFlowStarts 21 (started appConfig [Some "boom"]) in
  let r := flushMetrics cw in
  let produced := batchesOf (newCalls cw r.2) in
  (swapBuffer cw).1 = flowStarted <$> seq 0 21
  /\ (length (swapBuffer cw).1 + 19) / 20 = 2
  /\ length produced = 1
  /\ concat produced = flowStarted <$> seq 0 20
  /\ concat produced <> (swapBuffer cw).1.
Proof.
  cbv zeta. split; [vm_compute; reflexivity|].
  split; [vm_compute; reflexivity|].
  split; [vm_compute; reflexivity|].
  split; [vm_compute; reflexivity|].
  intros Heq. apply (f_equal length) in Heq. vm_compute in Heq.
  discriminate.
Qed.

(** ** Shutdown *)

(** C7: [Close] on a running instance stops it and runs one flush pass,
    whose result it returns. On an empty buffer the pass makes no call to
    the service and the result is nil. On a non-empty buffer the pass makes
    at least one call, the batches it sends are the first batches of the
    buffer, and the result is the answer of its last call: nil when every
    batch was confirmed, the error of the failed send otherwise. *)
Theorem Close_final_flush {S} `{CloudWatchAPI S} (cw : CloudWatch S) :
  stopCh cw = ChanOpen ->
  exists err cw',
    Close cw = Some (err, cw')
    /\ (err, cw') = flushMetrics (stop cw)
    /\ lifecycle cw' = Stopped
    /\ bufferTicker cw' = TickerStopped
    /\ (metricBuffer cw = [] ->
        err = None /\ calls (client cw') = calls (client cw)
        /\ metricBuffer cw' = [])
    /\ (metricBuffer cw <> [] ->
        (batchesOf (newCalls cw cw') `prefix_of` batchesFrom (metricBuffer cw) 0)
        /\ 1 <= length (newCalls cw cw')
        /\ snd <$> last (newCalls cw cw') = Some err
        /\ (err = None ->
            delivered (newCalls cw cw') = batchesFrom (metricBuffer cw) 0
            /\ metricBuffer cw' = [])).
Proof.
  intros Hopen. unfold Close. rewrite Hopen.
  destruct (flushMetrics_outcome (stop cw)) as [Hsame Hout].
  destruct (flushMetrics (stop cw)) as [err cw'] eqn:Hflush. simpl in *.
  exists err, cw'. split; [reflexivity|]. split; [reflexivity|].
  destruct Hsame as (_ & _ & Hticker & Hch & _).
  split; [unfold lifecycle; rewrite Hch; reflexivity|].
  split; [exact Hticker|].
  split.
  - intros Hempty. rewrite Hempty in *.
    rewrite batchesFrom_step in Hout. simpl in Hout.
    destruct err as [e|].
    + destruct Hout as (sent & failed & rest & Hb & _).
      destruct sent; discriminate.
    + destruct Hout as [Hc Hbuf]. unfold okCalls in Hc. simpl in Hc.
      rewrite app_nil_r in Hc. repeat split; assumption.
  - intros Hne.
    assert (Hbs : batchesFrom (metricBuffer cw) 0 <> []).
    { rewrite batchesFrom_step. destruct (metricBuffer cw); [congruence|].
      rewrite decide_True by (simpl; lia). discriminate. }
    destruct err as [e|].
    + destruct Hout as (sent & failed & rest & Hb & Hc & _).
      apply (newCalls_app cw cw') in Hc. rewrite Hc.
      split; [|split; [|split]].
      * unfold batchesOf. rewrite fmap_app.
        fold (batchesOf (okCalls (namespace cw) sent)).
        rewrite batchesOf_okCalls. simpl.
        exists rest. rewrite Hb, <- app_assoc. reflexivity.
      * rewrite length_app. simpl. lia.
      * rewrite last_snoc. reflexivity.
      * discriminate.
    + destruct Hout as [Hc Hbuf].
      apply (newCalls_app cw cw') in Hc. rewrite Hc.
      split; [|split; [|split]].
      * rewrite batchesOf_okCalls. reflexivity.
      * unfold okCalls. rewrite length_fmap.
        destruct (batchesFrom (metricBuffer cw) 0); [congruence|simpl; lia].
      * unfold okCalls.
        destruct (batchesFrom (metricBuffer cw) 0) as [|b bs] using rev_ind;
          [congruence|].
        rewrite fmap_app. simpl. rewrite last_snoc. reflexivity.
      * intros _. rewrite delivered_okCalls. split; [reflexivity|exact Hbuf].
Qed.

Lemma Close_final_flush_witness :
  let cw := afterFlowStarts 3 (started appConfig [Some "down"]) in
  let idle := started appConfig [Some "down"] in
  stopCh cw = ChanOpen
  /\ metricBuffer cw <> []
  /\ (exists err cw',
        Close cw = Some (err, cw')
        /\ snd <$> last (newCalls cw cw') = Some err)
  /\ stopCh idle = ChanOpen
  /\ metricBuffer idle = []
  /\ (exists err cw',
        Close idle = Some (err, cw')
        /\ err = None /\ calls (client cw') = calls (client idle)).
Proof.
  cbv zeta.
  split; [vm_compute; reflexivity|].
  split; [vm_compute; discriminate|].
  split.
  { destruct (Close_final_flush
                (afterFlowStarts 3 (started appConfig [Some "down"])))
      as (err & cw' & Hclose & _ & _ & _ & _ & Hfull).
    { vm_compute. reflexivity. }
    exists err, cw'. split; [exact Hclose|].
    apply Hfull. vm_compute. discriminate. }
  split; [vm_compute; reflexivity|].
  split; [vm_compute; reflexivity|].
  destruct (Close_final_flush (started appConfig [Some "down"]))
    as (err & cw' & Hclose & _ & _ & _ & Hempty & _).
  { vm_compute. reflexivity. }
  exists err, cw'. split; [exact Hclose|].
  destruct Hempty as (He & Hc & _); [vm_compute; reflexivity|].
  split; assumption.
Defined.

(** ** The buffer and its swap *)

Lemma NoDup_concat_disjoint {A} (ls : list (list A)) (i j : nat)
    (a b : list A) (x : A) :
  NoDup (concat ls) -> i <> j ->
  ls !! i = Some a -> ls !! j = Some b -> x ∈ a -> x ∉ b.
Proof.
  revert i j. induction ls as [|l ls IH]; intros i j Hnd Hij Hi Hj Ha Hb.
  - discriminate.
  - simpl in Hnd. apply NoDup_app in Hnd as (_ & Hdisj & Hrest).
    assert (Hin : forall k c, ls !! k = Some c -> x ∈ c -> x ∈ concat ls).
    { intros k c Hk Hc. apply list_elem_of_In, in_concat.
      exists c. split; apply list_elem_of_In; [|exact Hc].
      apply list_elem_of_lookup. exists k. exact Hk. }
    destruct i as [|i], j as [|j]; simpl in *.
    + congruence.
    + injection Hi as ->. exact (Hdisj x Ha (Hin j b Hj Hb)).
    + injection Hj as ->. exact (Hdisj x Hb (Hin i a Hi Ha)).
    + apply (IH i j); auto.
Qed.

Lemma runOps_partition {S} (ops : list BufferOp) (cw : CloudWatch S) :
  concat (runOps ops cw).2 ++ metricBuffer (runOps ops cw).1
  = metricBuffer cw ++ appended ops.
Proof.
  revert cw. induction ops as [|[ms|] ops IH]; intros cw; simpl.
  - rewrite app_nil_r. reflexivity.
  - rewrite IH. simpl. rewrite <- app_assoc. reflexivity.
  - specialize (IH (set_metricBuffer [] cw)).
    destruct (runOps ops (set_metricBuffer [] cw)) as [cw' outs].
    simpl in *. rewrite <- app_assoc, IH. reflexivity.
Qed.

(** C8 (as amended): the swap at the start of a flush pass returns exactly
    the points that the buffer holds and leaves the buffer empty, without
    touching anything else of the instance. Over any history of appends and
    swaps on the buffer, what the swaps return, in order, followed by what
    is left in the buffer, is what the buffer held at first followed by what
    was appended. So two swaps of a history have no point in common when the
    points put into the buffer are pairwise different, that is, unless a
    point was put into the buffer again in between, as a flush pass does
    with a batch whose send failed, for the next pass to retry it. *)
Theorem swapBuffer_takes_all_once {S} (cw : CloudWatch S) :
  (swapBuffer cw).1 = metricBuffer cw
  /\ metricBuffer (swapBuffer cw).2 = []
  /\ length (metricBuffer (swapBuffer cw).2) = 0
  /\ client (swapBuffer cw).2 = client cw
  /\ sameSettings cw (swapBuffer cw).2
  /\ (forall ops,
        concat (runOps ops cw).2 ++ metricBuffer (runOps ops cw).1
        = metricBuffer cw ++ appended ops)
  /\ (forall ops i j out1 out2 p,
        NoDup (metricBuffer cw ++ appended ops) ->
        i <> j ->
        (runOps ops cw).2 !! i = Some out1 ->
        (runOps ops cw).2 !! j = Some out2 ->
        p ∈ out1 -> p ∉ out2).
Proof.
  split; [reflexivity|]. split; [reflexivity|]. split; [reflexivity|].
  split; [reflexivity|]. split; [repeat split|].
  split; [intros ops; apply runOps_partition|].
  intros ops i j out1 out2 p Hnd Hij Hi Hj Hp.
  rewrite <- runOps_partition in Hnd. apply NoDup_app in Hnd as (Hnd & _).
  exact (NoDup_concat_disjoint _ i j out1 out2 p Hnd Hij Hi Hj Hp).
Qed.

Lemma swapBuffer_takes_all_once_witness :
  let cw := afterFlowStarts 2 (started appConfig []) in
  let ops := [OpSwap; OpAppend [flowStarted 2; flowStarted 3]; OpSwap] in
  NoDup (metricBuffer cw ++ appended ops)
  /\ (runOps ops cw).2 !! 0 = Some [flowStarted 0; flowStarted 1]
  /\ (runOps ops cw).2 !! 1 = Some [flowStarted 2; flowStarted 3]
  /\ (flowStarted 1 ∈ [flowStarted 0; flowStarted 1])
  /\ (flowStarted 1 ∉ [flowStarted 2; flowStarted 3]).
Proof.
  cbv zeta.
  assert (Hnd : NoDup (metricBuffer (afterFlowStarts 2 (started appConfig []))
                       ++ appended [OpSwap;
                                    OpAppend [flowStarted 2; flowStarted 3];
                                    OpSwap])).
  { apply (bool_decide_eq_true_1 _). vm_compute. reflexivity. }
  assert (Hin : flowStarted 1 ∈ [flowStarted 0; flowStarted 1]).
  { apply (bool_decide_eq_true_1 _). vm_compute. reflexivity. }
  split; [exact Hnd|].
  split; [vm_compute; reflexivity|].
  split; [vm_compute; reflexivity|].
  split; [exact Hin|].
  pose proof (swapBuffer_takes_all_once (afterFlowStarts 2 (started appConfig [])))
    as (_ & _ & _ & _ & _ & _ & Hdisj).
  apply (Hdisj [OpSwap; OpAppend [flowStarted 2; flowStarted 3]; OpSwap] 0 1
           [flowStarted 0; flowStarted 1] [flowStarted 2; flowStarted 3]
           (flowStarted 1) Hnd).
  - lia.
  - vm_compute. reflexivity.
  - vm_compute. reflexivity.
  - exact Hin.
Defined.

(** C8 (as stated) fails: three points are buffered and the service fails
    the first call. The swap of the first flush pass returns the three
    points, the pass puts them back into the buffer for retry, and the swap
    of the next pass returns the same three points. *)
Lemma swapBuffer_returns_retried_points_again :
  let cw := afterFlowStarts 3 (started appConfig [Some "down"]) in
  let first := (swapBuffer cw).1 in
  let second := (swapBuffer (flushMetrics cw).2).1 in
  first = flowStarted <$> seq 0 3
  /\ (flushMetrics cw).1 = Some "down"
  /\ second = first
  /\ (runOps [OpSwap; OpAppend first; OpSwap] cw).2 = [first; second]
  /\ ~ (forall p, p ∈ first -> p ∉ second).
Proof.
  cbv zeta. split; [vm_compute; reflexivity|].
  split; [vm_compute; reflexivity|].
  split; [vm_compute; reflexivity|].
  split; [vm_compute; reflexivity|].
  intros Hdisj. apply (Hdisj (flowStarted 0));
    apply (bool_decide_eq_true_1 _); vm_compute; reflexivity.
Qed.

(** ** Construction *)

Lemma SetDefaults_size_sign (c : Config) :
  (MetricBufferSize (SetDefaults c) <? 0)%Z = (MetricBufferSize c <? 0)%Z.
Proof.
  unfold SetDefaults; cbn [MetricBufferSize].
  destruct (MetricBufferSize c =? 0)%Z eqn:Hz; [|reflexivity].
  apply Z.eqb_eq in Hz. rewrite Hz. reflexivity.
Qed.

Lemma NewCloudWatch_Some {S} (svc : S) (c : Config) :
  (0 <= MetricBufferSize c)%Z ->
  NewCloudWatch svc c = Some (newInstance svc (SetDefaults c), None).
Proof.
  intros Hsize. unfold NewCloudWatch. cbv zeta.
  rewrite SetDefaults_size_sign.
  destruct (Z.ltb_spec (MetricBufferSize c) 0) as [Hneg|_]; [lia|reflexivity].
Qed.

Lemma NewCloudWatch_None {S} (svc : S) (c : Config) :
  (MetricBufferSize c < 0)%Z -> NewCloudWatch svc c = None.
Proof.
  intros Hsize. unfold NewCloudWatch. cbv zeta.
  rewrite SetDefaults_size_sign.
  destruct (Z.ltb_spec (MetricBufferSize c) 0) as [_|Hpos]; [reflexivity|lia].
Qed.

Lemma NewCloudWatch_inv {S} (svc : S) (c : Config) (cw : CloudWatch S)
    (err : error) :
  NewCloudWatch svc c = Some (cw, err) ->
  (0 <= MetricBufferSize c)%Z /\ cw = newInstance svc (SetDefaults c)
  /\ err = None.
Proof.
  intros Hnew.
  destruct (Z.lt_ge_cases (MetricBufferSize c) 0) as [Hneg|Hpos].
  - rewrite (NewCloudWatch_None svc c Hneg) in Hnew. discriminate.
  - rewrite (NewCloudWatch_Some svc c Hpos) in Hnew.
    injection Hnew as <- <-. repeat split. exact Hpos.
Qed.

(** [started] is what [NewCloudWatch] returns on the scripted service. *)
Lemma NewCloudWatch_started (cfg : Config) (script : Script) :
  (0 <= MetricBufferSize cfg)%Z ->
  NewCloudWatch script cfg = Some (started cfg script, None).
Proof. exact (NewCloudWatch_Some script cfg). Qed.

(** C3 (as amended): [Validate] rejects a configuration whose namespace is
    empty, with the error "namespace is required". [NewCloudWatch] does not
    call [Validate]: on such a configuration whose buffer size is not
    negative it applies [SetDefaults], which puts the default namespace
    "GenKit/AWS" in place of the empty one, and returns a nil error with an
    instance that is running under that namespace. *)
Theorem empty_namespace_rejected_by_Validate_only (c : Config) :
  Namespace c = EmptyString ->
  (0 <= MetricBufferSize c)%Z ->
  Validate c = Some "namespace is required"
  /\ Namespace (SetDefaults c) = "GenKit/AWS"
  /\ (forall S (svc : S),
        exists cw,
          NewCloudWatch svc c = Some (cw, None)
          /\ lifecycle cw = Running
          /\ bufferTicker cw = TickerRunning constants.MetricFlushInterval
          /\ flushLoopStarted cw = true
          /\ namespace cw = "GenKit/AWS"
          /\ metricBuffer cw = []).
Proof.
  intros Hns Hsize.
  split; [unfold Validate; rewrite Hns; reflexivity|].
  assert (Hdef : Namespace (SetDefaults c) = "GenKit/AWS").
  { unfold SetDefaults; cbn [Namespace]. rewrite Hns. reflexivity. }
  split; [exact Hdef|].
  intros S svc. exists (newInstance svc (SetDefaults c)).
  split; [exact (NewCloudWatch_Some svc c Hsize)|].
  repeat split. exact Hdef.
Qed.

Lemma empty_namespace_rejected_by_Validate_only_witness :
  let c := {| Namespace := EmptyString;
              EnableFlowMetrics := true;
              EnableModelMetrics := false;
              EnableXRayTracing := false;
              CustomDimensions := None;
              MetricBufferSize := 0 |} in
  Namespace c = EmptyString
  /\ (0 <= MetricBufferSize c)%Z
  /\ Validate c = Some "namespace is required"
  /\ (exists cw, NewCloudWatch ([] : Script) c = Some (cw, None)
                 /\ namespace cw = "GenKit/AWS").
Proof.
  cbv zeta. split; [reflexivity|]. split; [vm_compute; discriminate|].
  pose proof (empty_namespace_rejected_by_Validate_only
                {| Namespace := EmptyString;
                   EnableFlowMetrics := true;
                   EnableModelMetrics := false;
                   EnableXRayTracing := false;
                   CustomDimensions := None;
                   MetricBufferSize := 0 |} eq_refl) as Hthm.
  destruct Hthm as (Hv & _ & Hnew); [vm_compute; discriminate|].
  split; [exact Hv|].
  destruct (Hnew Script []) as (cw & Hcw & _ & _ & _ & Hns & _).
  exists cw. split; [exact Hcw|exact Hns].
Defined.

(** C3 (as stated) fails: [NewCloudWatch] on a configuration whose namespace
    is the empty string returns an instance and no error, and the instance
    is running. *)
Lemma NewCloudWatch_accepts_empty_namespace :
  let c := {| Namespace := EmptyString;
              EnableFlowMetrics := false;
              EnableModelMetrics := false;
              EnableXRayTracing := false;
              CustomDimensions := None;
              MetricBufferSize := 0 |} in
  exists cw,
    NewCloudWatch ([] : Script) c = Some (cw, None)
    /\ lifecycle cw = Running
    /\ bufferTicker cw = TickerRunning constants.MetricFlushInterval
    /\ flushLoopStarted cw = true.
Proof.
  cbv zeta. eexists. split; [vm_compute; reflexivity|].
  repeat split; reflexivity.
Qed.

(** ** Submitting a point *)

(** C4 (as amended): [putMetric] does not look at the name of the point and
    has no result by which it could report a rejection. Whatever the name,
    empty or not, it appends the point at the end of the buffer, makes no
    call to the service, and spawns one flush goroutine when the buffer has
    reached the configured size. *)
Theorem putMetric_appends_any_name {S} (now : Time) (metricName : string)
    (value : Z) (dimensions : list Dimension) (cw : CloudWatch S) :
  let cw' := putMetric now metricName value dimensions cw in
  metricBuffer cw'
  = metricBuffer cw
      ++ [ {| MetricName := metricName; MetricValue := value;
              Unit := StandardUnitCount; Timestamp := now;
              Dimensions := dimensions |} ]
  /\ client cw' = client cw
  /\ config cw' = config cw
  /\ spawnedFlushes cw'
     = (if (MetricBufferSize (config cw)
            <=? Z.of_nat (Datatypes.S (length (metricBuffer cw))))%Z
        then Datatypes.S (spawnedFlushes cw) else spawnedFlushes cw).
Proof.
  unfold putMetric, appendBuffer. simpl. rewrite length_app. simpl.
  replace (length (metricBuffer cw) + 1) with (Datatypes.S (length (metricBuffer cw)))
    by lia.
  destruct (_ <=? _)%Z; repeat split.
Qed.

(** C4 (as stated) fails: a point with the empty name enters the buffer. *)
Lemma putMetric_accepts_empty_name :
  metricBuffer (putMetric 7%Z EmptyString 1%Z [] (started appConfig []))
  = [ {| MetricName := EmptyString; MetricValue := 1%Z;
         Unit := StandardUnitCount; Timestamp := 7%Z; Dimensions := [] |} ].
Proof. vm_compute. reflexivity. Qed.

(** ** Dimensions *)

Section Dimensions.
Context {S : Type} `{MapIteration} `{UnicodeFolding}.

Lemma mapRange_keys (m : gmap string string) (k : string) :
  k ∈ (fst <$> mapRange m) <-> is_Some (m !! k).
Proof.
  rewrite (mapRange_perm m). rewrite list_elem_of_fmap. split.
  - intros ([k' v] & -> & Hin). apply elem_of_map_to_list in Hin.
    simpl. eauto.
  - intros [v Hv]. exists (k, v). split; [reflexivity|].
    apply elem_of_map_to_list. exact Hv.
Qed.

Lemma mapRange_keys_NoDup (m : gmap string string) :
  NoDup (fst <$> mapRange m).
Proof. rewrite (mapRange_perm m). apply NoDup_fst_map_to_list. Qed.

Lemma rangeOf_keys (m : option (gmap string string)) (k : string) :
  k ∈ (fst <$> rangeOf m) <-> is_Some (default ∅ m !! k).
Proof.
  destruct m as [m|]; simpl; [apply mapRange_keys|].
  rewrite lookup_empty. split; [intros Hin; inversion Hin|].
  intros [v Hv]. discriminate.
Qed.

Lemma rangeOf_keys_NoDup (m : option (gmap string string)) :
  NoDup (fst <$> rangeOf m).
Proof. destruct m; simpl; [apply mapRange_keys_NoDup|constructor]. Qed.

Lemma buildDimensions_names (cw : CloudWatch S)
    (dimensions : gmap string string) :
  Name <$> buildDimensions cw dimensions
  = (fst <$> rangeOf (CustomDimensions (config cw)))
      ++ (fst <$> mapRange dimensions).
Proof.
  unfold buildDimensions. rewrite fmap_app, <- !list_fmap_compose.
  reflexivity.
Qed.

Lemma buildDimensions_NoDup (cw : CloudWatch S)
    (dimensions : gmap string string) :
  NoDup (Name <$> buildDimensions cw dimensions)
  <-> (forall k, is_Some (default ∅ (CustomDimensions (config cw)) !! k) ->
                 dimensions !! k = None).
Proof.
  rewrite buildDimensions_names, NoDup_app. split.
  - intros (_ & Hdisj & _) k Hk.
    apply rangeOf_keys in Hk. specialize (Hdisj k Hk).
    rewrite mapRange_keys in Hdisj.
    destruct (dimensions !! k); [exfalso; eauto|reflexivity].
  - intros Hdisj. split; [apply rangeOf_keys_NoDup|].
    split; [|apply mapRange_keys_NoDup].
    intros k Hk Hk'. apply rangeOf_keys in Hk. apply mapRange_keys in Hk'.
    rewrite (Hdisj k Hk) in Hk'. destruct Hk' as [? ?]. discriminate.
Qed.

Lemma putMetric_buffer (now : Time) (metricName : string) (value : Z)
    (dimensions : list Dimension) (cw : CloudWatch S) :
  metricBuffer (putMetric now metricName value dimensions cw)
  = metricBuffer cw
      ++ [mkMetricDatum metricName value StandardUnitCount now dimensions].
Proof. unfold putMetric. destruct (_ <=? _)%Z; reflexivity. Qed.

Lemma emitted_app (cw cw' : CloudWatch S) (ps : list MetricDatum) :
  metricBuffer cw' = metricBuffer cw ++ ps -> emitted cw cw' = ps.
Proof. intros Hb. unfold emitted. rewrite Hb. apply drop_app_length. Qed.

Lemma emitted_same (cw : CloudWatch S) : emitted cw cw = [].
Proof. apply emitted_app. rewrite app_nil_r. reflexivity. Qed.

(** Every point that a hook puts into the buffer carries the dimensions
    that [buildDimensions] made from the map of that hook. *)
Lemma hooks_use_buildDimensions (cw : CloudWatch S) :
  (forall now flowName p,
      p ∈ emitted cw (OnFlowStart now flowName cw) ->
      Dimensions p = buildDimensions cw {[ "FlowName" := flowName ]})
  /\ (forall now1 now2 flowName duration p,
        p ∈ emitted cw (OnFlowEnd now1 now2 flowName duration cw) ->
        Dimensions p
        = buildDimensions cw
            (<[ "Status" := "Success" ]> {[ "FlowName" := flowName ]}))
  /\ (forall now1 now2 flowName duration err p,
        p ∈ emitted cw (OnFlowError now1 now2 flowName duration err cw) ->
        Dimensions p
        = buildDimensions cw
            (<[ "ErrorType" := getErrorType err ]>
               (<[ "Status" := "Error" ]> {[ "FlowName" := flowName ]})))
  /\ (forall now1 now2 now3 modelID tokensUsed duration p,
        p ∈ emitted cw
              (OnGenerate now1 now2 now3 modelID tokensUsed duration cw) ->
        Dimensions p = buildDimensions cw {[ "ModelID" := modelID ]}).
Proof.
  unfold OnFlowStart, OnFlowEnd, OnFlowError, OnGenerate.
  repeat split; intros until p; intros Hin;
    (destruct (negb _);
     [ rewrite emitted_same in Hin; apply elem_of_nil in Hin; contradiction
     | erewrite emitted_app in Hin
         by (rewrite !putMetric_buffer, <- ?app_assoc; reflexivity);
       repeat (apply elem_of_cons in Hin as [-> | Hin]; [reflexivity|]);
       apply elem_of_nil in Hin; contradiction ]).
Qed.
End Dimensions.

(** C9 (as amended): [buildDimensions] lists the custom dimensions and then
    the dimensions of the call, and removes nothing. The keys of its result
    are pairwise different exactly when no key of the custom dimensions is
    also a key of the call's dimensions. Every point that [OnFlowStart],
    [OnFlowEnd], [OnFlowError] or [OnGenerate] puts into the buffer carries
    the result of [buildDimensions] for the map of that hook. *)
Theorem dimension_keys_unique_iff_no_clash {S} `{MapIteration}
    `{UnicodeFolding}
    (cw : CloudWatch S) :
  (forall dimensions : gmap string string,
      NoDup (Name <$> buildDimensions cw dimensions)
      <-> (forall k, is_Some (default ∅ (CustomDimensions (config cw)) !! k) ->
                     dimensions !! k = None))
  /\ (forall now flowName p,
        p ∈ emitted cw (OnFlowStart now flowName cw) ->
        Dimensions p = buildDimensions cw {[ "FlowName" := flowName ]})
  /\ (forall now1 now2 flowName duration p,
        p ∈ emitted cw (OnFlowEnd now1 now2 flowName duration cw) ->
        Dimensions p
        = buildDimensions cw
            (<[ "Status" := "Success" ]> {[ "FlowName" := flowName ]}))
  /\ (forall now1 now2 flowName duration err p,
        p ∈ emitted cw (OnFlowError now1 now2 flowName duration err cw) ->
        Dimensions p
        = buildDimensions cw
            (<[ "ErrorType" := getErrorType err ]>
               (<[ "Status" := "Error" ]> {[ "FlowName" := flowName ]})))
  /\ (forall now1 now2 now3 modelID tokensUsed duration p,
        p ∈ emitted cw
              (OnGenerate now1 now2 now3 modelID tokensUsed duration cw) ->
        Dimensions p = buildDimensions cw {[ "ModelID" := modelID ]}).
Proof.
  split; [intros dimensions; apply buildDimensions_NoDup|].
  apply hooks_use_buildDimensions.
Qed.

Section DimensionsRun.
#[local] Existing Instance keepNonASCII.

Lemma dimension_keys_unique_iff_no_clash_witness :
  let cw := started flowOnlyConfig [] in
  let p := {| MetricName := "FlowStarted"; MetricValue := 1;
              Unit := StandardUnitCount; Timestamp := 5%Z;
              Dimensions := [ {| Name := "Environment"; Value := "prod" |};
                              {| Name := "FlowName"; Value := "f" |} ] |} in
  (p ∈ emitted cw (OnFlowStart 5%Z "f" cw))
  /\ Dimensions p = buildDimensions cw {[ "FlowName" := "f" ]}
  /\ NoDup (Name <$> buildDimensions cw {[ "FlowName" := "f" ]}).
Proof.
  cbv zeta.
  pose proof (dimension_keys_unique_iff_no_clash (started flowOnlyConfig []))
    as (Hiff & Hstart & _).
  assert (Hin : mkMetricDatum "FlowStarted" 1 StandardUnitCount 5%Z
                  [ mkDimension "Environment" "prod";
                    mkDimension "FlowName" "f" ]
                ∈ emitted (started flowOnlyConfig [])
                    (OnFlowStart 5%Z "f" (started flowOnlyConfig []))).
  { apply (bool_decide_eq_true_1 _). vm_compute. reflexivity. }
  split; [exact Hin|].
  split; [exact (Hstart 5%Z "f" _ Hin)|].
  apply Hiff. intros k [v Hv].
  change (default ∅ (CustomDimensions (config (started flowOnlyConfig []))))
    with ({[ "Environment" := "prod" ]} : gmap string string) in Hv.
  apply lookup_singleton_Some in Hv as [<- _]. reflexivity.
Defined.

End DimensionsRun.

(** C9 (as stated) fails: with the custom dimension "FlowName",
    [OnFlowStart] emits a point in which the key "FlowName" occurs twice. *)
Lemma OnFlowStart_repeats_custom_key :
  let cw := OnFlowStart 0%Z "f" (started clashingConfig []) in
  (fmap Name ∘ Dimensions) <$> metricBuffer cw = [["FlowName"; "FlowName"]]
  /\ ~ NoDup ["FlowName"; "FlowName"].
Proof.
  split; [vm_compute; reflexivity|].
  apply (bool_decide_eq_false_1 _). vm_compute. reflexivity.
Qed.

(** ** The switches of the hooks *)

(** C10: while [EnableFlowMetrics] is off, [OnFlowStart], [OnFlowEnd] and
    [OnFlowError] return the instance as it was: the buffer, the client with
    the calls made to the service, and the spawned goroutines are unchanged.
    While [EnableModelMetrics] is off the same holds of [OnGenerate]. *)
Theorem disabled_hooks_change_nothing {S} `{MapIteration} `{UnicodeFolding}
    (cw : CloudWatch S) :
  (EnableFlowMetrics (config cw) = false ->
   (forall now flowName, OnFlowStart now flowName cw = cw)
   /\ (forall now1 now2 flowName duration,
         OnFlowEnd now1 now2 flowName duration cw = cw)
   /\ (forall now1 now2 flowName duration err,
         OnFlowError now1 now2 flowName duration err cw = cw))
  /\ (EnableModelMetrics (config cw) = false ->
      forall now1 now2 now3 modelID tokensUsed duration,
        OnGenerate now1 now2 now3 modelID tokensUsed duration cw = cw).
Proof.
  unfold OnFlowStart, OnFlowEnd, OnFlowError, OnGenerate.
  split; intros Hoff; rewrite Hoff; repeat split.
Qed.

Section SwitchesRun.
#[local] Existing Instance keepNonASCII.

Lemma disabled_hooks_change_nothing_witness :
  let flowOff := afterFlowStarts 2 (started modelOnlyConfig []) in
  let modelOff := afterFlowStarts 2 (started flowOnlyConfig []) in
  EnableFlowMetrics (config flowOff) = false
  /\ OnFlowStart 9%Z "f" flowOff = flowOff
  /\ OnFlowEnd 9%Z 10%Z "f" 1500000%Z flowOff = flowOff
  /\ OnFlowError 9%Z 10%Z "f" 1500000%Z (Some "timeout") flowOff = flowOff
  /\ metricBuffer flowOff = []
  /\ EnableModelMetrics (config modelOff) = false
  /\ OnGenerate 9%Z 10%Z 11%Z "nova" 42%Z 1500000%Z modelOff = modelOff
  /\ length (metricBuffer modelOff) = 2.
Proof.
  cbv zeta.
  pose proof (disabled_hooks_change_nothing
                (afterFlowStarts 2 (started modelOnlyConfig [])))
    as [Hflow _].
  pose proof (disabled_hooks_change_nothing
                (afterFlowStarts 2 (started flowOnlyConfig [])))
    as [_ Hmodel].
  destruct Hflow as (Hstart & Hend & Herr); [vm_compute; reflexivity|].
  split; [vm_compute; reflexivity|].
  split; [apply Hstart|]. split; [apply Hend|]. split; [apply Herr|].
  split; [vm_compute; reflexivity|].
  split; [vm_compute; reflexivity|].
  split; [apply Hmodel; vm_compute; reflexivity|].
  vm_compute. reflexivity.
Defined.

End SwitchesRun.

(** * Further properties of the code *)

(** ** Configuration defaults *)

(** X1: applying [SetDefaults] twice is the same as applying it once. *)
Theorem SetDefaults_idempotent (c : Config) :
  SetDefaults (SetDefaults c) = SetDefaults c.
Proof.
  destruct c as [ns f m x cd sz]. unfold SetDefaults. simpl.
  f_equal.
  - destruct (String.eqb ns EmptyString) eqn:E; simpl; [reflexivity|].
    rewrite E. reflexivity.
  - destruct f, m, x; reflexivity.
  - destruct f, m, x; reflexivity.
  - destruct cd; reflexivity.
  - destruct (sz =? 0)%Z eqn:E; simpl; [reflexivity|]. rewrite E. reflexivity.
Qed.

(** X2: after [SetDefaults] at least one of flow metrics and model metrics
    is on. A configuration that has one of them on keeps both flags as they
    are; one that has both off gets both switched on, whatever its X-Ray
    flag, which is never changed. *)
Theorem SetDefaults_keeps_some_metrics_on (c : Config) :
  EnableFlowMetrics (SetDefaults c) || EnableModelMetrics (SetDefaults c) = true
  /\ EnableXRayTracing (SetDefaults c) = EnableXRayTracing c
  /\ (EnableFlowMetrics c || EnableModelMetrics c = true ->
      EnableFlowMetrics (SetDefaults c) = EnableFlowMetrics c
      /\ EnableModelMetrics (SetDefaults c) = EnableModelMetrics c)
  /\ (EnableFlowMetrics c = false -> EnableModelMetrics c = false ->
      EnableFlowMetrics (SetDefaults c) = true
      /\ EnableModelMetrics (SetDefaults c) = true).
Proof.
  destruct c as [ns f m x cd sz]. unfold SetDefaults. simpl.
  destruct f, m, x; simpl; repeat split; try reflexivity; try discriminate.
Qed.

Lemma SetDefaults_keeps_some_metrics_on_witness :
  let off := {| Namespace := "App"; EnableFlowMetrics := false;
                EnableModelMetrics := false; EnableXRayTracing := true;
                CustomDimensions := None; MetricBufferSize := 5 |} in
  EnableFlowMetrics off = false /\ EnableModelMetrics off = false
  /\ EnableFlowMetrics (SetDefaults off) = true
  /\ EnableModelMetrics (SetDefaults off) = true
  /\ EnableFlowMetrics modelOnlyConfig || EnableModelMetrics modelOnlyConfig
     = true
  /\ EnableFlowMetrics (SetDefaults modelOnlyConfig) = false.
Proof.
  cbv zeta. split; [reflexivity|]. split; [reflexivity|].
  pose proof (SetDefaults_keeps_some_metrics_on
                {| Namespace := "App"; EnableFlowMetrics := false;
                   EnableModelMetrics := false; EnableXRayTracing := true;
                   CustomDimensions := None; MetricBufferSize := 5 |})
    as (_ & _ & _ & Hoff).
  destruct (Hoff eq_refl eq_refl) as [Hf Hm].
  split; [exact Hf|]. split; [exact Hm|].
  split; [reflexivity|].
  pose proof (SetDefaults_keeps_some_metrics_on modelOnlyConfig)
    as (_ & _ & Hon & _).
  destruct (Hon eq_refl) as [Hf' _]. exact Hf'.
Defined.

(** X3: a configuration with defaults applied passes [Validate] exactly when
    its buffer size was not negative; a negative size is the only thing
    [Validate] can still object to. [SetDefaults] keeps the namespace and a
    non-zero buffer size of a configuration that passes [Validate]. *)
Theorem SetDefaults_then_Validate (c : Config) :
  (Validate (SetDefaults c) = None <-> (0 <= MetricBufferSize c)%Z)
  /\ ((MetricBufferSize c < 0)%Z ->
      Validate (SetDefaults c) = Some "metric_buffer_size must be non-negative")
  /\ (Validate c = None ->
      Namespace (SetDefaults c) = Namespace c
      /\ (MetricBufferSize c <> 0%Z ->
          MetricBufferSize (SetDefaults c) = MetricBufferSize c)).
Proof.
  destruct c as [ns f m x cd sz]. unfold Validate, SetDefaults. simpl.
  assert (Hns : String.eqb (if String.eqb ns EmptyString
                            then constants.DefaultNamespace else ns)
                           EmptyString = false).
  { destruct (String.eqb ns EmptyString) eqn:E; [reflexivity|exact E]. }
  rewrite Hns.
  split; [|split].
  - destruct (sz =? 0)%Z eqn:E0.
    + apply Z.eqb_eq in E0. subst sz. simpl. split; [lia|reflexivity].
    + destruct (sz <? 0)%Z eqn:E1.
      * apply Z.ltb_lt in E1. split; [discriminate|lia].
      * apply Z.ltb_ge in E1. split; [lia|reflexivity].
  - intros Hneg. destruct (sz =? 0)%Z eqn:E0; [apply Z.eqb_eq in E0; lia|].
    apply Z.ltb_lt in Hneg. rewrite Hneg. reflexivity.
  - destruct (String.eqb ns EmptyString); [discriminate|]. intros _.
    split; [reflexivity|]. intros Hnz.
    apply Z.eqb_neq in Hnz. rewrite Hnz. reflexivity.
Qed.

Lemma SetDefaults_then_Validate_witness :
  let negative := {| Namespace := EmptyString; EnableFlowMetrics := true;
                     EnableModelMetrics := true; EnableXRayTracing := false;
                     CustomDimensions := None; MetricBufferSize := -3 |} in
  (MetricBufferSize negative < 0)%Z
  /\ Validate (SetDefaults negative)
     = Some "metric_buffer_size must be non-negative"
  /\ Validate appConfig = None
  /\ Namespace (SetDefaults appConfig) = "App"
  /\ MetricBufferSize (SetDefaults appConfig) = 50%Z.
Proof.
  cbv zeta.
  pose proof (SetDefaults_then_Validate
                {| Namespace := EmptyString; EnableFlowMetrics := true;
                   EnableModelMetrics := true; EnableXRayTracing := false;
                   CustomDimensions := None; MetricBufferSize := -3 |})
    as (_ & Hneg & _).
  pose proof (SetDefaults_then_Validate appConfig) as (_ & _ & Hkeep).
  split; [reflexivity|]. split; [apply Hneg; reflexivity|].
  split; [reflexivity|].
  destruct (Hkeep eq_refl) as [Hns Hsz].
  split; [exact Hns|]. apply Hsz. discriminate.
Defined.

(** ** Submissions *)

Section Submit.
Context {S : Type}.

Lemma putMetric_frame (now : Time) (metricName : string) (value : Z)
    (dimensions : list Dimension) (cw : CloudWatch S) :
  let cw' := putMetric now metricName value dimensions cw in
  client cw' = client cw /\ config cw' = config cw
  /\ namespace cw' = namespace cw /\ bufferTicker cw' = bufferTicker cw
  /\ stopCh cw' = stopCh cw /\ flushLoopStarted cw' = flushLoopStarted cw.
Proof. unfold putMetric. destruct (_ <=? _)%Z; repeat split. Qed.

Lemma putMetric_spawned (now : Time) (metricName : string) (value : Z)
    (dimensions : list Dimension) (cw : CloudWatch S) :
  spawnedFlushes (putMetric now metricName value dimensions cw)
  = if (MetricBufferSize (config cw)
        <=? Z.of_nat (length (metricBuffer cw)) + 1)%Z
    then Datatypes.S (spawnedFlushes cw) else spawnedFlushes cw.
Proof.
  unfold putMetric, appendBuffer. simpl. rewrite length_app. simpl.
  replace (Z.of_nat (length (metricBuffer cw) + 1))
    with (Z.of_nat (length (metricBuffer cw)) + 1)%Z by lia.
  destruct (_ <=? _)%Z; reflexivity.
Qed.

Lemma putMetrics_outcome (args : list PutMetricArgs) (cw : CloudWatch S) :
  metricBuffer (putMetrics args cw) = metricBuffer cw ++ (datumOf <$> args)
  /\ client (putMetrics args cw) = client cw
  /\ config (putMetrics args cw) = config cw
  /\ (Z.of_nat (spawnedFlushes (putMetrics args cw))
      = Z.of_nat (spawnedFlushes cw) + Z.of_nat (length args)
        - Z.min (Z.of_nat (length args))
            (Z.max 0 (MetricBufferSize (config cw)
                      - Z.of_nat (length (metricBuffer cw)) - 1)))%Z.
Proof.
  revert cw. induction args as [|a args IH]; intros cw.
  - simpl. rewrite app_nil_r. repeat split. lia.
  - unfold putMetrics in *. simpl fold_left.
    specialize (IH (putMetric (argNow a) (argName a) (argValue a)
                      (argDimensions a) cw)).
    destruct IH as (Hb & Hc & Hcfg & Hsp).
    pose proof (putMetric_frame (argNow a) (argName a) (argValue a)
                  (argDimensions a) cw) as (Hc1 & Hcfg1 & _).
    rewrite Hb, Hc, Hcfg, Hsp, Hc1, Hcfg1.
    rewrite putMetric_buffer, putMetric_spawned.
    split; [rewrite <- app_assoc; reflexivity|].
    split; [reflexivity|]. split; [reflexivity|].
    rewrite length_app. cbn [length fmap list_fmap].
    destruct (_ <=? _)%Z eqn:E; [apply Z.leb_le in E|apply Z.leb_gt in E];
      lia.
Qed.

(** X4: a run of [putMetric] calls with no flush in between appends the
    points in call order and never calls the service. It spawns no flush
    goroutine while the buffer stays below [MetricBufferSize], and one more
    goroutine at every call from the one that reaches that size on: with B
    the size, n the points buffered before and m the calls, the goroutines
    spawned are m less the smaller of m and max(0, B - n - 1). *)
Theorem putMetrics_buffer_and_goroutines (args : list PutMetricArgs)
    (cw : CloudWatch S) :
  metricBuffer (putMetrics args cw) = metricBuffer cw ++ (datumOf <$> args)
  /\ client (putMetrics args cw) = client cw
  /\ config (putMetrics args cw) = config cw
  /\ (Z.of_nat (spawnedFlushes (putMetrics args cw))
      = Z.of_nat (spawnedFlushes cw) + Z.of_nat (length args)
        - Z.min (Z.of_nat (length args))
            (Z.max 0 (MetricBufferSize (config cw)
                      - Z.of_nat (length (metricBuffer cw)) - 1)))%Z.
Proof. exact (putMetrics_outcome args cw). Qed.

(** X5: [NewCloudWatch] panics on a negative [MetricBufferSize], which
    [SetDefaults] leaves as it is and [Validate] rejects. Whenever it
    returns, the error is nil, the size given was not negative, and the
    instance is running over the configuration with its defaults applied:
    the buffer is empty, no call was made to the service, no flush goroutine
    is spawned, and the flush threshold is at least 1. *)
Theorem NewCloudWatch_panics_on_negative_size (svc : S) (c : Config) :
  ((MetricBufferSize c < 0)%Z ->
   Validate c <> None
   /\ MetricBufferSize (SetDefaults c) = MetricBufferSize c
   /\ NewCloudWatch svc c = None)
  /\ (forall cw err,
        NewCloudWatch svc c = Some (cw, err) ->
        err = None
        /\ (0 <= MetricBufferSize c)%Z
        /\ lifecycle cw = Running
        /\ config cw = SetDefaults c
        /\ namespace cw = Namespace (SetDefaults c)
        /\ metricBuffer cw = []
        /\ calls (client cw) = []
        /\ service (client cw) = svc
        /\ spawnedFlushes cw = 0
        /\ (1 <= MetricBufferSize (config cw))%Z).
Proof.
  split.
  - intros Hneg. split; [|split].
    + unfold Validate. destruct (String.eqb _ _); [discriminate|].
      apply Z.ltb_lt in Hneg. rewrite Hneg. discriminate.
    + unfold SetDefaults; cbn [MetricBufferSize].
      destruct (MetricBufferSize c =? 0)%Z eqn:E;
        [apply Z.eqb_eq in E; lia|reflexivity].
    + exact (NewCloudWatch_None svc c Hneg).
  - intros cw err Hnew.
    apply NewCloudWatch_inv in Hnew as (Hsize & -> & ->).
    repeat split; [exact Hsize|].
    unfold SetDefaults, constants.DefaultBufferSize; cbn.
    destruct (MetricBufferSize c =? 0)%Z eqn:E; [lia|].
    apply Z.eqb_neq in E. lia.
Qed.
End Submit.

Lemma NewCloudWatch_panics_on_negative_size_witness :
  let c := {| Namespace := "App"; EnableFlowMetrics := true;
              EnableModelMetrics := true; EnableXRayTracing := false;
              CustomDimensions := None; MetricBufferSize := -1 |} in
  (MetricBufferSize c < 0)%Z
  /\ NewCloudWatch ([] : Script) c = None
  /\ NewCloudWatch ([] : Script) appConfig = Some (started appConfig [], None)
  /\ lifecycle (started appConfig []) = Running
  /\ (1 <= MetricBufferSize (config (started appConfig [])))%Z.
Proof.
  cbv zeta.
  pose proof (NewCloudWatch_panics_on_negative_size ([] : Script)
                {| Namespace := "App"; EnableFlowMetrics := true;
                   EnableModelMetrics := true; EnableXRayTracing := false;
                   CustomDimensions := None; MetricBufferSize := -1 |})
    as [Hneg _].
  pose proof (NewCloudWatch_panics_on_negative_size ([] : Script) appConfig)
    as [_ Hret].
  assert (Hlt : (-1 < 0)%Z) by reflexivity.
  assert (Hnew : NewCloudWatch ([] : Script) appConfig
                 = Some (started appConfig [], None)) by reflexivity.
  split; [exact Hlt|].
  split; [exact (proj2 (proj2 (Hneg Hlt)))|].
  split; [exact Hnew|].
  destruct (Hret _ _ Hnew) as (_ & _ & Hrun & _ & _ & _ & _ & _ & _ & Hthr).
  split; [exact Hrun|exact Hthr].
Defined.

(** ** More on a flush pass *)

(** X25: a flush pass, as the code runs it, sends the batches of the buffer
    in order and returns at the first send that fails. If no send fails it
    returns nil and leaves the buffer empty. If a send fails, the batches
    before it were confirmed, the call log ends with the failed call, the
    buffer holds exactly the points of the failed batch in their order, and
    the error returned is the error of that send. *)
Theorem flushMetrics_stops_at_failed_batch {S} `{CloudWatchAPI S}
    (cw : CloudWatch S) :
  let r := flushMetrics cw in
  let bs := batchesFrom (metricBuffer cw) 0 in
  match r.1 with
  | None =>
      newCalls cw r.2 = okCalls (namespace cw) bs /\ metricBuffer r.2 = []
  | Some e =>
      exists sent failed rest,
        bs = sent ++ failed :: rest
        /\ newCalls cw r.2
           = okCalls (namespace cw) sent ++ [failedCall (namespace cw) failed e]
        /\ metricBuffer r.2 = failed
  end.
Proof.
  intros r bs. subst r bs.
  destruct (flushMetrics_outcome cw) as [_ Hout].
  destruct (flushMetrics cw) as [[e|] cw']; simpl in *.
  - destruct Hout as (sent & failed & rest & Hb & Hc & Hbuf).
    exists sent, failed, rest. split; [exact Hb|]. split; [|exact Hbuf].
    apply newCalls_app. exact Hc.
  - destruct Hout as [Hc Hbuf]. split; [|exact Hbuf].
    apply newCalls_app. exact Hc.
Qed.

(** X26: the loop of a flush pass over N points cuts ceil(N/20) batches when
    it runs to its end: the k-th is the 20 points from position 20*k on
    (fewer at the end), so no batch is empty or longer than 20, the batches
    in order make up the input, and each keeps the order of its points. The
    batches that a pass sends are the first of these, and all of them when
    no send fails. *)
Theorem flushMetrics_partition {S} `{CloudWatchAPI S} (cw : CloudWatch S) :
  let ms := metricBuffer cw in
  let bs := batchesFrom ms 0 in
  length bs = (length ms + 19) / 20
  /\ length ms <= 20 * length bs < length ms + 20
  /\ Forall (fun b => 0 < length b <= 20) bs
  /\ concat bs = ms
  /\ (forall k b, bs !! k = Some b -> b = take 20 (drop (20 * k) ms))
  /\ (batchesOf (newCalls cw (flushMetrics cw).2) `prefix_of` bs)
  /\ ((flushMetrics cw).1 = None ->
      batchesOf (newCalls cw (flushMetrics cw).2) = bs).
Proof.
  intros ms bs.
  assert (Hlen : length bs = (length ms + 19) / 20).
  { subst bs. rewrite batchesFrom_length. rewrite Nat.sub_0_r. reflexivity. }
  split; [exact Hlen|]. split.
  { rewrite Hlen.
    pose proof (Nat.div_mod_eq (length ms + 19) 20) as Hdm.
    pose proof (Nat.mod_upper_bound (length ms + 19) 20) as Hub. lia. }
  split; [exact (batchesFrom_sizes ms 0)|].
  split; [exact (batchesFrom_concat ms 0)|].
  split; [intros k b Hk; exact (batchesFrom_lookup ms k 0 b Hk)|].
  destruct (flushMetrics_outcome cw) as [_ Hout].
  destruct (flushMetrics cw) as [[e|] cw']; simpl in *.
  - destruct Hout as (sent & failed & rest & Hb & Hc & _).
    apply newCalls_app in Hc. rewrite Hc. unfold batchesOf.
    rewrite fmap_app. fold (batchesOf (okCalls (namespace cw) sent)).
    rewrite batchesOf_okCalls. simpl. split; [|discriminate].
    exists rest. subst bs ms. rewrite Hb, <- app_assoc. reflexivity.
  - destruct Hout as [Hc _]. apply newCalls_app in Hc.
    rewrite Hc, batchesOf_okCalls. split; reflexivity.
Qed.

Lemma flushMetrics_partition_witness :
  let cw := afterFlowStarts 45 (started appConfig []) in
  (flushMetrics cw).1 = None
  /\ batchesFrom (metricBuffer cw) 0 !! 2 = Some (flowStarted <$> seq 40 5)
  /\ batchesOf (newCalls cw (flushMetrics cw).2)
     = batchesFrom (metricBuffer cw) 0
  /\ flowStarted <$> seq 40 5 = take 20 (drop (20 * 2) (metricBuffer cw)).
Proof.
  cbv zeta.
  pose proof (flushMetrics_partition (afterFlowStarts 45 (started appConfig [])))
    as (_ & _ & _ & _ & Hk & _ & Hall).
  split; [vm_compute; reflexivity|].
  split; [vm_compute; reflexivity|].
  split.
  - apply Hall. vm_compute. reflexivity.
  - apply (Hk 2). vm_compute. reflexivity.
Defined.

Section FlushMore.
Context {S : Type} `{CloudWatchAPI S}.

Lemma delivered_app (cs1 cs2 : list Call) :
  delivered (cs1 ++ cs2) = delivered cs1 ++ delivered cs2.
Proof. unfold delivered. rewrite filter_app, fmap_app. reflexivity. Qed.

Lemma delivered_failedCall (ns : string) (b : list MetricDatum) (e : string) :
  delivered [failedCall ns b e] = [].
Proof. reflexivity. Qed.

Lemma batchesFrom_single (ms : list MetricDatum) :
  0 < length ms <= constants.MaxMetricsPerRequest ->
  batchesFrom ms 0 = [ms].
Proof.
  intros Hlen. rewrite batchesFrom_step, decide_True by lia.
  rewrite batchAt_take, drop_0, take_ge by lia.
  rewrite batchesFrom_step, decide_False by lia. reflexivity.
Qed.

Lemma batchesFrom_short (ms : list MetricDatum)
    (bs1 bs2 : list (list MetricDatum)) (b : list MetricDatum) :
  length ms <= constants.MaxMetricsPerRequest ->
  batchesFrom ms 0 = bs1 ++ b :: bs2 -> bs1 = [] /\ b = ms /\ bs2 = [].
Proof.
  intros Hlen Hb.
  assert (Hpos : 0 < length ms).
  { destruct ms; [|simpl; lia]. rewrite batchesFrom_step in Hb.
    simpl in Hb. destruct bs1; discriminate. }
  rewrite batchesFrom_single in Hb by lia.
  destruct bs1 as [|b1 bs1]; simpl in Hb.
  - injection Hb as <- <-. auto.
  - injection Hb as _ Hb. destruct bs1; discriminate.
Qed.

Lemma Forall_okCalls (ns : string) (bs : list (list MetricDatum))
    (P : list MetricDatum -> Prop) :
  Forall P bs ->
  Forall (fun c : Call => InputNamespace c.1 = ns /\ P (MetricData c.1))
         (okCalls ns bs).
Proof. unfold okCalls. induction 1; simpl; constructor; auto. Qed.

Lemma set_metricBuffer_same (cw : CloudWatch S) :
  set_metricBuffer (metricBuffer cw) cw = cw.
Proof. destruct cw. reflexivity. Qed.

(** X6: a flush pass neither duplicates nor reorders points. The points of
    the confirmed batches, then the points left in the buffer, then the
    points that were taken but not sent, are the buffer as it was before the
    pass. Nothing is left unsent when the pass returns nil (the buffer is
    then empty) or when at most 20 points were buffered. *)
Theorem flushMetrics_conserves_order (cw : CloudWatch S) :
  let r := flushMetrics cw in
  exists unsent : list MetricDatum,
    concat (delivered (newCalls cw r.2)) ++ metricBuffer r.2 ++ unsent
    = metricBuffer cw
    /\ (r.1 = None -> metricBuffer r.2 = [] /\ unsent = [])
    /\ (length (metricBuffer cw) <= 20 -> unsent = []).
Proof.
  intros r. subst r.
  destruct (flushMetrics_outcome cw) as [_ Hout].
  destruct (flushMetrics cw) as [[e|] cw']; simpl in *.
  - destruct Hout as (sent & failed & rest & Hb & Hc & Hbuf).
    apply newCalls_app in Hc. exists (concat rest).
    split; [|split; [discriminate|]].
    + rewrite Hc, delivered_app, delivered_okCalls, delivered_failedCall,
        app_nil_r, Hbuf.
      assert (Hall : concat (sent ++ failed :: rest) = metricBuffer cw)
        by (rewrite <- Hb; apply (batchesFrom_concat (metricBuffer cw) 0)).
      rewrite <- Hall, concat_app. reflexivity.
    + intros Hlen. apply batchesFrom_short in Hb as (_ & _ & ->);
        [reflexivity|exact Hlen].
  - destruct Hout as [Hc Hbuf]. apply newCalls_app in Hc. exists [].
    rewrite Hc, delivered_okCalls, Hbuf, batchesFrom_concat.
    simpl. rewrite app_nil_r. repeat split; reflexivity.
Qed.

(** X7: a flush pass only adds calls to the log of the service. Each call it
    makes is under the namespace of the instance and carries at least 1 and
    at most 20 points; it makes at most ceil(N/20) calls for N buffered
    points, and changes nothing of the instance but the buffer and the
    client. *)
Theorem flushMetrics_calls_wellformed (cw : CloudWatch S) :
  let r := flushMetrics cw in
  calls (client r.2) = calls (client cw) ++ newCalls cw r.2
  /\ Forall (fun c : Call =>
               InputNamespace c.1 = namespace cw
               /\ 0 < length (MetricData c.1) <= 20)
            (newCalls cw r.2)
  /\ length (newCalls cw r.2) <= (length (metricBuffer cw) + 19) / 20
  /\ sameSettings cw r.2.
Proof.
  intros r. subst r.
  pose proof (batchesFrom_sizes (metricBuffer cw) 0) as Hsizes.
  pose proof (batchesFrom_length (metricBuffer cw) 0) as Hlen.
  rewrite Nat.sub_0_r in Hlen.
  change (constants.MaxMetricsPerRequest - 1) with 19 in Hlen.
  change constants.MaxMetricsPerRequest with 20 in Hlen, Hsizes.
  destruct (flushMetrics_outcome cw) as [Hsame Hout].
  destruct (flushMetrics cw) as [[e|] cw']; cbn [fst snd] in *.
  - destruct Hout as (sent & failed & rest & Hb & Hc & Hbuf).
    rewrite (newCalls_app cw cw' _ Hc). rewrite Hb in Hsizes, Hlen.
    apply Forall_app in Hsizes as [Hsent Hrest].
    apply Forall_cons in Hrest as [Hfailed _].
    split; [exact Hc|]. split; [|split; [|exact Hsame]].
    + apply Forall_app. split;
        [apply (Forall_okCalls _ _ (fun b => 0 < length b <= 20)); exact Hsent|].
      constructor; [|constructor]. split; [reflexivity|exact Hfailed].
    + rewrite <- Hlen. unfold okCalls.
      rewrite !length_app, length_fmap. simpl. lia.
  - destruct Hout as [Hc Hbuf]. rewrite (newCalls_app cw cw' _ Hc).
    split; [exact Hc|]. split; [|split; [|exact Hsame]].
    + apply (Forall_okCalls _ _ (fun b => 0 < length b <= 20)). exact Hsizes.
    + rewrite <- Hlen. unfold okCalls. rewrite length_fmap. lia.
Qed.

(** X8: after a flush pass the buffer holds at most 20 points, and it is
    empty exactly when the pass returned nil. When the pass returned an
    error, that error is the answer of the last call it made, and the buffer
    holds exactly the points of that call. *)
Theorem flushMetrics_leaves_at_most_one_batch (cw : CloudWatch S) :
  let r := flushMetrics cw in
  length (metricBuffer r.2) <= 20
  /\ (r.1 = None <-> metricBuffer r.2 = [])
  /\ (forall e, r.1 = Some e ->
        snd <$> last (newCalls cw r.2) = Some (Some e)
        /\ (MetricData ∘ fst) <$> last (newCalls cw r.2)
           = Some (metricBuffer r.2)).
Proof.
  intros r. subst r.
  pose proof (batchesFrom_sizes (metricBuffer cw) 0) as Hsizes.
  change constants.MaxMetricsPerRequest with 20 in Hsizes.
  destruct (flushMetrics_outcome cw) as [_ Hout].
  destruct (flushMetrics cw) as [[e|] cw']; simpl in *.
  - destruct Hout as (sent & failed & rest & Hb & Hc & Hbuf).
    rewrite (newCalls_app cw cw' _ Hc). rewrite Hb in Hsizes.
    apply Forall_app in Hsizes as [_ Hrest].
    apply Forall_cons in Hrest as [Hfailed _]. subst failed.
    split; [lia|]. split.
    + split; [discriminate|]. intros Hnil. rewrite Hnil in Hfailed.
      simpl in Hfailed. lia.
    + intros e' [= <-]. rewrite last_snoc. split; reflexivity.
  - destruct Hout as [_ Hbuf]. rewrite Hbuf. simpl.
    split; [lia|]. split; [split; reflexivity|]. discriminate.
Qed.

(** X9: when a flush pass failed and nothing was submitted since, the next
    pass makes exactly one call, with the points of the failed batch in
    their order under the same namespace. If that call is confirmed the
    buffer ends empty; if it fails the buffer holds the same points again. *)
Theorem flushMetrics_retries_failed_batch (cw cw1 : CloudWatch S) (e : string) :
  flushMetrics cw = (Some e, cw1) ->
  let r := flushMetrics cw1 in
  exists answer,
    newCalls cw1 r.2 = [(mkInput (namespace cw) (metricBuffer cw1), answer)]
    /\ r.1 = answer
    /\ (answer = None -> metricBuffer r.2 = [])
    /\ (answer <> None -> metricBuffer r.2 = metricBuffer cw1).
Proof.
  intros Hfirst r. subst r.
  destruct (flushMetrics_outcome cw) as [Hsame Hout].
  rewrite Hfirst in Hsame, Hout. simpl in *.
  destruct Hout as (sent & failed & rest & Hb & _ & Hbuf).
  pose proof (batchesFrom_sizes (metricBuffer cw) 0) as Hsizes.
  rewrite Hb in Hsizes. apply Forall_app in Hsizes as [_ Hrest].
  apply Forall_cons in Hrest as [Hfailed _]. rewrite <- Hbuf in Hfailed.
  destruct Hsame as (_ & Hns & _).
  destruct (flushMetrics_outcome cw1) as [_ Hout1].
  rewrite (batchesFrom_single _ Hfailed) in Hout1. rewrite Hns in Hout1.
  destruct (flushMetrics cw1) as [[e1|] cw2]; simpl in *.
  - destruct Hout1 as (sent1 & failed1 & rest1 & Hb1 & Hc1 & Hbuf1).
    exists (Some e1).
    assert (sent1 = [] /\ failed1 = metricBuffer cw1) as [-> ->].
    { destruct sent1 as [|s1 sent1]; simpl in Hb1.
      - injection Hb1 as <- _. auto.
      - injection Hb1 as _ Hb1. destruct sent1; discriminate. }
    split; [exact (newCalls_app cw1 cw2 _ Hc1)|].
    split; [reflexivity|]. split; [discriminate|]. intros _. exact Hbuf1.
  - destruct Hout1 as [Hc1 Hbuf1]. exists None.
    split; [exact (newCalls_app cw1 cw2 _ Hc1)|].
    split; [reflexivity|]. split; [intros _; exact Hbuf1|]. congruence.
Qed.

(** X10: on an empty buffer a flush pass returns nil and leaves the instance
    exactly as it was. So a turn of the ticker changes nothing, and a
    spawned flush goroutine that finds the buffer empty only ends itself. *)
Theorem flush_of_empty_buffer_is_noop (cw : CloudWatch S) :
  metricBuffer cw = [] ->
  flushMetrics cw = (None, cw)
  /\ flushLoop_tick cw = cw
  /\ (forall n, spawnedFlushes cw = Datatypes.S n ->
        runSpawnedFlush cw = set_spawnedFlushes n cw)
  /\ (spawnedFlushes cw = 0 -> runSpawnedFlush cw = cw).
Proof.
  intros Hempty.
  assert (Hflush : forall cw0 : CloudWatch S,
             metricBuffer cw0 = [] -> flushMetrics cw0 = (None, cw0)).
  { intros cw0 H0. unfold flushMetrics, swapBuffer. rewrite H0. simpl.
    rewrite <- H0 at 1. rewrite set_metricBuffer_same. reflexivity. }
  split; [exact (Hflush cw Hempty)|].
  split; [unfold flushLoop_tick; rewrite (Hflush cw Hempty); reflexivity|].
  split.
  - intros n Hn. unfold runSpawnedFlush. rewrite Hn.
    rewrite Hflush; [reflexivity|exact Hempty].
  - intros Hz. unfold runSpawnedFlush. rewrite Hz. reflexivity.
Qed.
End FlushMore.

(** X11: the loop of a flush pass never slices outside the points it took:
    at an index below the length, the end of the batch lies after the index
    and within the length, at most 20 further; the batch has exactly that
    many points; and only the last batch can be shorter than 20. *)
Theorem batch_indices_in_range (len i : nat) (ms : list MetricDatum) :
  i < len ->
  i < batchEnd len i <= len
  /\ batchEnd len i - i <= 20
  /\ (length ms = len -> length (batchAt ms i) = batchEnd len i - i)
  /\ (batchEnd len i < len -> batchEnd len i = i + 20).
Proof.
  intros Hi. unfold batchAt, slice, batchEnd. cbv zeta.
  change constants.MaxMetricsPerRequest with 20.
  split; [|split; [|split]].
  - destruct (decide (len < i + 20)); lia.
  - destruct (decide (len < i + 20)); lia.
  - intros <-. rewrite length_take, length_drop.
    destruct (decide (length ms < i + 20)); lia.
  - destruct (decide (len < i + 20)); lia.
Qed.

Lemma flushMetrics_conserves_order_witness :
  let ok := afterFlowStarts 45 (started appConfig []) in
  let small := afterFlowStarts 3 (started appConfig [Some "down"]) in
  (flushMetrics ok).1 = None
  /\ length (metricBuffer small) <= 20
  /\ (exists unsent,
        concat (delivered (newCalls ok (flushMetrics ok).2))
          ++ metricBuffer (flushMetrics ok).2 ++ unsent
        = metricBuffer ok
        /\ metricBuffer (flushMetrics ok).2 = [] /\ unsent = [])
  /\ (exists unsent,
        concat (delivered (newCalls small (flushMetrics small).2))
          ++ metricBuffer (flushMetrics small).2 ++ unsent
        = metricBuffer small
        /\ unsent = []).
Proof.
  cbv zeta.
  assert (Hok : (flushMetrics (afterFlowStarts 45 (started appConfig []))).1
                = None) by (vm_compute; reflexivity).
  assert (Hsmall : length (metricBuffer
                             (afterFlowStarts 3
                                (started appConfig [Some "down"]))) <= 20)
    by (vm_compute; lia).
  split; [exact Hok|]. split; [exact Hsmall|].
  split.
  - destruct (flushMetrics_conserves_order
                (afterFlowStarts 45 (started appConfig [])))
      as (unsent & Heq & Hnil & _).
    exists unsent. split; [exact Heq|]. exact (Hnil Hok).
  - destruct (flushMetrics_conserves_order
                (afterFlowStarts 3 (started appConfig [Some "down"])))
      as (unsent & Heq & _ & Hshort).
    exists unsent. split; [exact Heq|]. exact (Hshort Hsmall).
Defined.

Lemma flushMetrics_leaves_at_most_one_batch_witness :
  let cw := afterFlowStarts 21 (started appConfig [Some "boom"]) in
  (flushMetrics cw).1 = Some "boom"
  /\ snd <$> last (newCalls cw (flushMetrics cw).2) = Some (Some "boom")
  /\ (MetricData ∘ fst) <$> last (newCalls cw (flushMetrics cw).2)
     = Some (metricBuffer (flushMetrics cw).2).
Proof.
  cbv zeta.
  assert (Herr : (flushMetrics
                    (afterFlowStarts 21 (started appConfig [Some "boom"]))).1
                 = Some "boom") by (vm_compute; reflexivity).
  split; [exact Herr|].
  pose proof (flushMetrics_leaves_at_most_one_batch
                (afterFlowStarts 21 (started appConfig [Some "boom"])))
    as (_ & _ & Hlast).
  exact (Hlast "boom" Herr).
Defined.

Lemma flushMetrics_retries_failed_batch_witness :
  let cw := afterFlowStarts 3 (started appConfig [Some "down"]) in
  let cw1 := (flushMetrics cw).2 in
  flushMetrics cw = (Some "down", cw1)
  /\ exists answer,
       newCalls cw1 (flushMetrics cw1).2
       = [(mkInput (namespace cw) (metricBuffer cw1), answer)]
       /\ (flushMetrics cw1).1 = answer.
Proof.
  cbv zeta.
  assert (Hfirst : flushMetrics
                     (afterFlowStarts 3 (started appConfig [Some "down"]))
                   = (Some "down",
                      (flushMetrics
                         (afterFlowStarts 3
                            (started appConfig [Some "down"]))).2))
    by (vm_compute; reflexivity).
  split; [exact Hfirst|].
  destruct (flushMetrics_retries_failed_batch _ _ _ Hfirst)
    as (answer & Hcalls & Hres & _).
  exists answer. split; [exact Hcalls|exact Hres].
Defined.

Lemma flush_of_empty_buffer_is_noop_witness :
  let cw := started appConfig [Some "down"] in
  metricBuffer cw = []
  /\ flushMetrics cw = (None, cw)
  /\ flushLoop_tick cw = cw
  /\ spawnedFlushes cw = 0
  /\ runSpawnedFlush cw = cw.
Proof.
  cbv zeta.
  pose proof (flush_of_empty_buffer_is_noop (started appConfig [Some "down"])
                eq_refl) as (Hflush & Htick & _ & Hrun).
  split; [reflexivity|]. split; [exact Hflush|]. split; [exact Htick|].
  split; [reflexivity|]. exact (Hrun eq_refl).
Defined.

Lemma batch_indices_in_range_witness :
  let ms := metricBuffer (afterFlowStarts 45 (started appConfig [])) in
  40 < 45
  /\ length ms = 45
  /\ 40 < batchEnd 45 40 <= 45
  /\ length (batchAt ms 40) = batchEnd 45 40 - 40.
Proof.
  cbv zeta.
  pose proof (batch_indices_in_range 45 40
                (metricBuffer (afterFlowStarts 45 (started appConfig [])))
                ltac:(lia)) as (Hend & _ & Hlen & _).
  assert (H45 : length (metricBuffer
                          (afterFlowStarts 45 (started appConfig []))) = 45)
    by (vm_compute; reflexivity).
  split; [lia|]. split; [exact H45|]. split; [exact Hend|]. exact (Hlen H45).
Defined.

(** ** The hooks and shutdown, continued *)

Section Hooks.
Context {S : Type} `{MapIteration} `{UnicodeFolding}.

Lemma appendsOnly_refl (cw : CloudWatch S) : appendsOnly cw cw.
Proof.
  unfold appendsOnly. rewrite emitted_same, app_nil_r. repeat split. lia.
Qed.

Lemma appendsOnly_putMetric (now : Time) (metricName : string) (value : Z)
    (dimensions : list Dimension) (cw0 cw : CloudWatch S) :
  appendsOnly cw0 cw ->
  appendsOnly cw0 (putMetric now metricName value dimensions cw).
Proof.
  unfold appendsOnly. intros (Hc & Hcfg & Hns & Ht & Hch & Hl & Hb & Hsp).
  assert (Hbuf : metricBuffer (putMetric now metricName value dimensions cw)
                 = metricBuffer cw0
                     ++ (emitted cw0 cw
                         ++ [mkMetricDatum metricName value StandardUnitCount
                               now dimensions])).
  { rewrite putMetric_buffer, Hb at 1. rewrite <- app_assoc. reflexivity. }
  rewrite (emitted_app cw0 _ _ Hbuf).
  unfold putMetric in *. destruct (_ <=? _)%Z; simpl in *;
    repeat split; try assumption; lia.
Qed.

Lemma OnFlowStart_appendsOnly (cw : CloudWatch S) :
  forall now flowName, appendsOnly cw (OnFlowStart now flowName cw).
Proof.
  intros now flowName. unfold OnFlowStart.
  destruct (negb _); [apply appendsOnly_refl|].
  apply appendsOnly_putMetric, appendsOnly_refl.
Qed.

(** X12: whatever the switches, a hook never calls the service and changes
    nothing of the instance except that it may append points to the buffer
    and spawn flush goroutines. With flow metrics on, [OnFlowStart] appends
    one point FlowStarted of value 1, and [OnFlowEnd] and [OnFlowError]
    append two points, FlowCompleted or FlowError of value 1 and then
    FlowDuration with the duration in whole milliseconds. With model metrics
    on, [OnGenerate] appends TokensUsed, GenerationDuration and
    GenerationCount in this order. Each point carries its own time. *)
Theorem hooks_only_append (cw : CloudWatch S) :
  (forall now flowName, appendsOnly cw (OnFlowStart now flowName cw))
  /\ (forall now1 now2 flowName duration,
        appendsOnly cw (OnFlowEnd now1 now2 flowName duration cw))
  /\ (forall now1 now2 flowName duration err,
        appendsOnly cw (OnFlowError now1 now2 flowName duration err cw))
  /\ (forall now1 now2 now3 modelID tokensUsed duration,
        appendsOnly cw
          (OnGenerate now1 now2 now3 modelID tokensUsed duration cw))
  /\ (EnableFlowMetrics (config cw) = true ->
      (forall now flowName,
          nameValueTime <$> emitted cw (OnFlowStart now flowName cw)
          = [("FlowStarted", 1%Z, now)])
      /\ (forall now1 now2 flowName duration,
            nameValueTime
              <$> emitted cw (OnFlowEnd now1 now2 flowName duration cw)
            = [("FlowCompleted", 1%Z, now1);
               ("FlowDuration", Milliseconds duration, now2)])
      /\ (forall now1 now2 flowName duration err,
            nameValueTime
              <$> emitted cw (OnFlowError now1 now2 flowName duration err cw)
            = [("FlowError", 1%Z, now1);
               ("FlowDuration", Milliseconds duration, now2)]))
  /\ (EnableModelMetrics (config cw) = true ->
      forall now1 now2 now3 modelID tokensUsed duration,
        nameValueTime
          <$> emitted cw
                (OnGenerate now1 now2 now3 modelID tokensUsed duration cw)
        = [("TokensUsed", tokensUsed, now1);
           ("GenerationDuration", Milliseconds duration, now2);
           ("GenerationCount", 1%Z, now3)]).
Proof.
  unfold OnFlowStart, OnFlowEnd, OnFlowError, OnGenerate.
  repeat split; intros;
    try (destruct (negb _);
         [apply appendsOnly_refl
         |repeat apply appendsOnly_putMetric; apply appendsOnly_refl]);
    match goal with
    | Hon : _ = true |- _ => rewrite Hon; simpl negb; cbv iota
    end;
    (erewrite emitted_app
       by (rewrite !putMetric_buffer, <- ?app_assoc; reflexivity));
    reflexivity.
Qed.
End Hooks.

Section HooksRun.
#[local] Existing Instance keepNonASCII.

Lemma hooks_only_append_witness :
  let cw := afterFlowStarts 2 (started appConfig []) in
  EnableFlowMetrics (config cw) = true
  /\ EnableModelMetrics (config cw) = true
  /\ nameValueTime <$> emitted cw (OnFlowEnd 7%Z 8%Z "f" 2500000%Z cw)
     = [("FlowCompleted", 1%Z, 7%Z); ("FlowDuration", 2%Z, 8%Z)]
  /\ nameValueTime
       <$> emitted cw (OnGenerate 7%Z 8%Z 9%Z "nova" 42%Z (-1500000)%Z cw)
     = [("TokensUsed", 42%Z, 7%Z); ("GenerationDuration", (-1)%Z, 8%Z);
        ("GenerationCount", 1%Z, 9%Z)].
Proof.
  cbv zeta.
  pose proof (hooks_only_append (afterFlowStarts 2 (started appConfig [])))
    as (_ & _ & _ & _ & Hflow & Hmodel).
  split; [reflexivity|]. split; [reflexivity|].
  destruct (Hflow eq_refl) as (_ & Hend & _).
  split; [exact (Hend 7%Z 8%Z "f" 2500000%Z)|].
  exact (Hmodel eq_refl 7%Z 8%Z 9%Z "nova" 42%Z (-1500000)%Z).
Defined.

End HooksRun.

Section CloseMore.
Context {S : Type} `{CloudWatchAPI S}.

(** X13: [Close] works once. After a [Close] that returned, the instance is
    stopped and a second [Close] panics, also after hooks have appended
    further points; the flush goroutines that were spawned before are
    neither run nor cancelled by [Close]; and a later flush by the loop or
    by such a goroutine leaves the instance stopped. *)
Theorem Close_is_one_shot (cw cw' : CloudWatch S) (err : error) :
  Close cw = Some (err, cw') ->
  Close cw' = None
  /\ lifecycle cw' = Stopped
  /\ spawnedFlushes cw' = spawnedFlushes cw
  /\ config cw' = config cw
  /\ (forall cw'' : CloudWatch S,
        appendsOnly cw' cw'' -> Close cw'' = None /\ lifecycle cw'' = Stopped)
  /\ lifecycle (flushLoop_tick cw') = Stopped
  /\ lifecycle (runSpawnedFlush cw') = Stopped.
Proof.
  unfold Close. destruct (stopCh cw) eqn:Hch; [|discriminate].
  intros [= Hflush].
  destruct (flushMetrics_outcome (stop cw)) as [Hsame _].
  rewrite Hflush in Hsame. simpl in Hsame.
  destruct Hsame as (Hcfg & _ & _ & Hch' & _ & Hsp).
  assert (Hstopped : forall c : CloudWatch S,
             stopCh c = ChanClosed -> lifecycle c = Stopped).
  { intros c Hc. unfold lifecycle. rewrite Hc. reflexivity. }
  assert (Hflushed : forall c : CloudWatch S,
             stopCh c = ChanClosed -> stopCh (flushMetrics c).2 = ChanClosed).
  { intros c Hc. destruct (flushMetrics_outcome c) as [(_ & _ & _ & Hc' & _) _].
    rewrite Hc'. exact Hc. }
  split; [rewrite Hch'; reflexivity|].
  split; [apply Hstopped; exact Hch'|].
  split; [exact Hsp|]. split; [exact Hcfg|].
  split.
  { intros cw'' (_ & _ & _ & _ & Hch'' & _).
    rewrite Hch'' , Hch'. split; [reflexivity|].
    apply Hstopped. rewrite Hch''. exact Hch'. }
  split.
  - apply Hstopped. unfold flushLoop_tick. apply Hflushed. exact Hch'.
  - apply Hstopped. unfold runSpawnedFlush.
    destruct (spawnedFlushes cw'); [exact Hch'|].
    apply Hflushed. exact Hch'.
Qed.
End CloseMore.

Lemma Close_is_one_shot_witness :
  let cw := afterFlowStarts 3 (started appConfig []) in
  exists cw',
    Close cw = Some (None, cw')
    /\ Close cw' = None
    /\ Close (OnFlowStart 9%Z "f" cw') = None
    /\ lifecycle (OnFlowStart 9%Z "f" cw') = Stopped.
Proof.
  cbv zeta.
  assert (Hclose : Close (afterFlowStarts 3 (started appConfig []))
                   = Some (None,
                           (flushMetrics
                              (stop (afterFlowStarts 3
                                       (started appConfig [])))).2))
    by (vm_compute; reflexivity).
  eexists. split; [exact Hclose|].
  pose proof (Close_is_one_shot _ _ _ Hclose) as (Hagain & _ & _ & _ & Hhook & _).
  split; [exact Hagain|].
  apply Hhook.
  pose proof (OnFlowStart_appendsOnly
                (flushMetrics
                   (stop (afterFlowStarts 3 (started appConfig [])))).2) as Hstart.
  exact (Hstart 9%Z "f").
Defined.

(** ** The classifier, continued *)

Lemma lower_byte_idempotent (c : ascii) :
  lower_byte (lower_byte c) = lower_byte c.
Proof. destruct c as [[] [] [] [] [] [] [] []]; reflexivity. Qed.

Lemma lower_byte_ascii (c : ascii) :
  (N_of_ascii c <? 128)%N = true -> (N_of_ascii (lower_byte c) <? 128)%N = true.
Proof. destruct c as [[] [] [] [] [] [] [] []]; intros Hc; exact Hc || reflexivity. Qed.

Lemma lower_bytes_idempotent (s : string) :
  lower_bytes (lower_bytes s) = lower_bytes s.
Proof.
  induction s as [|c s IH]; simpl; [reflexivity|].
  rewrite lower_byte_idempotent, IH. reflexivity.
Qed.

Lemma lower_bytes_app (s t : string) :
  lower_bytes (s +:+ t) = lower_bytes s +:+ lower_bytes t.
Proof.
  induction s as [|c s IH]; simpl; [reflexivity|]. rewrite IH. reflexivity.
Qed.

Lemma isASCII_lower_bytes (s : string) :
  isASCII s = true -> isASCII (lower_bytes s) = true.
Proof.
  induction s as [|c s IH]; simpl; [reflexivity|].
  rewrite !andb_true_iff. intros [Hc Hs]. split; [|exact (IH Hs)].
  exact (lower_byte_ascii c Hc).
Qed.

Lemma isASCII_app (s t : string) :
  isASCII (s +:+ t) = isASCII s && isASCII t.
Proof.
  induction s as [|c s IH]; [reflexivity|].
  change (isASCII (String c (s +:+ t)) = isASCII (String c s) && isASCII t).
  cbn [isASCII]. rewrite IH, andb_assoc. reflexivity.
Qed.

Lemma append_nil_r (a : string) : a +:+ EmptyString = a.
Proof.
  induction a as [|x a IH]; [reflexivity|].
  change (String x (a +:+ EmptyString) = String x a). rewrite IH. reflexivity.
Qed.

Lemma append_assoc3 (a b c : string) : (a +:+ b) +:+ c = a +:+ (b +:+ c).
Proof.
  induction a as [|x a IH]; [reflexivity|].
  change (String x ((a +:+ b) +:+ c) = String x (a +:+ (b +:+ c))).
  rewrite IH. reflexivity.
Qed.

Lemma strings_HasPrefix_iff (s prefix : string) :
  strings_HasPrefix s prefix = true <-> exists post, s = prefix +:+ post.
Proof.
  revert s. induction prefix as [|p prefix IH]; intros s.
  - split; [intros _; exists s; reflexivity|].
    intros _. destruct s; reflexivity.
  - destruct s as [|c s]; simpl.
    + split; [discriminate|intros [post Hp]; discriminate].
    + rewrite andb_true_iff, Ascii.eqb_eq, IH. split.
      * intros [-> [post ->]]. exists post. reflexivity.
      * intros [post [= -> ->]]. split; [reflexivity|]. exists post.
        reflexivity.
Qed.

Lemma strings_Contains_iff (s substr : string) :
  strings_Contains s substr = true
  <-> exists pre post, s = pre +:+ substr +:+ post.
Proof.
  induction s as [|c s IH].
  - cbn [strings_Contains]. rewrite orb_false_r, strings_HasPrefix_iff. split.
    + intros [post Hp]. exists EmptyString, post. exact Hp.
    + intros (pre & post & Hp). destruct pre; [|discriminate].
      exists post. exact Hp.
  - cbn [strings_Contains]. rewrite orb_true_iff, strings_HasPrefix_iff, IH.
    split.
    + intros [[post Hp] | (pre & post & ->)].
      * exists EmptyString, post. exact Hp.
      * exists (String c pre), post. reflexivity.
    + intros (pre & post & Hp). destruct pre as [|c' pre]; simpl in Hp.
      * left. exists post. exact Hp.
      * injection Hp as -> ->. right. exists pre, post. reflexivity.
Qed.

Section Classifier.
Context `{UnicodeFolding}.

Lemma strings_ToLower_ascii (s : string) :
  isASCII s = true -> strings_ToLower s = lower_bytes s.
Proof. unfold strings_ToLower. intros ->. reflexivity. Qed.

(** On ASCII text [strings.ToLower] is idempotent and distributes over
    concatenation; neither is known of the Unicode folding. *)
Lemma strings_ToLower_idempotent (s : string) :
  isASCII s = true -> strings_ToLower (strings_ToLower s) = strings_ToLower s.
Proof.
  intros Hs. rewrite (strings_ToLower_ascii s Hs).
  rewrite (strings_ToLower_ascii _ (isASCII_lower_bytes s Hs)).
  apply lower_bytes_idempotent.
Qed.

Lemma strings_ToLower_app (s t : string) :
  isASCII s = true -> isASCII t = true ->
  strings_ToLower (s +:+ t) = strings_ToLower s +:+ strings_ToLower t.
Proof.
  intros Hs Ht.
  rewrite (strings_ToLower_ascii s Hs), (strings_ToLower_ascii t Ht).
  rewrite strings_ToLower_ascii by (rewrite isASCII_app, Hs, Ht; reflexivity).
  apply lower_bytes_app.
Qed.

Lemma contains_iff (s substr : string) :
  contains s substr = true
  <-> exists pre post,
        strings_ToLower s = pre +:+ strings_ToLower substr +:+ post.
Proof. apply strings_Contains_iff. Qed.

Lemma contains_mono (s substr pre post : string) :
  isASCII pre = true -> isASCII s = true -> isASCII post = true ->
  contains s substr = true -> contains (pre +:+ s +:+ post) substr = true.
Proof.
  intros Hpre Hs Hpost Hc.
  apply contains_iff in Hc as (a & b & Hab). apply contains_iff.
  rewrite (strings_ToLower_app pre (s +:+ post) Hpre)
    by (rewrite isASCII_app, Hs, Hpost; reflexivity).
  rewrite (strings_ToLower_app s post Hs Hpost), Hab.
  exists (strings_ToLower pre +:+ a), (b +:+ strings_ToLower post).
  rewrite !append_assoc3. reflexivity.
Qed.

(** X14: [contains s substr] holds exactly when [strings.ToLower] of
    [substr] occurs as a run of bytes in [strings.ToLower] of [s]; for ASCII
    arguments that is: [substr] with its letters 'A'..'Z' lowered occurs in
    [s] with its letters lowered. Every string contains the empty string and
    itself. For ASCII text, moreover: the empty string contains no other
    string, lowering either argument beforehand does not matter, and ASCII
    text put before or after [s] never removes a match. *)
Theorem contains_is_substring_modulo_case (s substr : string) :
  (contains s substr = true
   <-> exists pre post,
         strings_ToLower s = pre +:+ strings_ToLower substr +:+ post)
  /\ (isASCII s = true -> isASCII substr = true ->
      (contains s substr = true
       <-> exists pre post,
             lower_bytes s = pre +:+ lower_bytes substr +:+ post))
  /\ contains s EmptyString = true
  /\ contains s s = true
  /\ (isASCII substr = true -> substr <> EmptyString ->
      contains EmptyString substr = false)
  /\ (isASCII s = true ->
      contains (strings_ToLower s) substr = contains s substr)
  /\ (isASCII substr = true ->
      contains s (strings_ToLower substr) = contains s substr)
  /\ (forall pre post,
        isASCII pre = true -> isASCII s = true -> isASCII post = true ->
        contains s substr = true ->
        contains (pre +:+ s +:+ post) substr = true).
Proof.
  split; [apply contains_iff|].
  split.
  { intros Hs Hsub. rewrite contains_iff.
    rewrite (strings_ToLower_ascii s Hs), (strings_ToLower_ascii substr Hsub).
    reflexivity. }
  split; [apply contains_iff; exists EmptyString, (strings_ToLower s);
          reflexivity|].
  split.
  { apply contains_iff. exists EmptyString, EmptyString.
    symmetry. apply append_nil_r. }
  split.
  { intros Hsub Hne. unfold contains.
    rewrite (strings_ToLower_ascii substr Hsub).
    destruct substr as [|c substr]; [congruence|]. reflexivity. }
  unfold contains.
  split; [intros Hs; rewrite (strings_ToLower_idempotent s Hs); reflexivity|].
  split; [intros Hsub; rewrite (strings_ToLower_idempotent substr Hsub);
          reflexivity|].
  intros pre post Hpre Hs Hpost Hc.
  exact (contains_mono s substr pre post Hpre Hs Hpost Hc).
Qed.

(** X15: the class of an error depends on its text only through
    [strings.ToLower] of it; for ASCII text, lowering the text beforehand
    does not change the class. A text that contains "timeout" in any case is
    classed Timeout whatever else it contains, and an ASCII text classed
    Timeout stays so when ASCII text is put before or after it. *)
Theorem getErrorType_ignores_case (a b : string) :
  (strings_ToLower a = strings_ToLower b ->
   getErrorType (Some a) = getErrorType (Some b))
  /\ (isASCII a = true ->
      getErrorType (Some (strings_ToLower a)) = getErrorType (Some a))
  /\ (contains a "timeout" = true -> getErrorType (Some a) = "Timeout")
  /\ (forall pre post,
        isASCII pre = true -> isASCII a = true -> isASCII post = true ->
        getErrorType (Some a) = "Timeout" ->
        getErrorType (Some (pre +:+ a +:+ post)) = "Timeout").
Proof.
  split; [|split; [|split]].
  - intros Heq. unfold getErrorType, contains. rewrite Heq. reflexivity.
  - intros Ha. unfold getErrorType, contains.
    rewrite (strings_ToLower_idempotent a Ha). reflexivity.
  - intros Hc. unfold getErrorType. rewrite Hc. reflexivity.
  - intros pre post Hpre Ha Hpost Ht.
    assert (Hc : contains a "timeout" = true).
    { unfold getErrorType in Ht.
      destruct (contains a "timeout"); [reflexivity|].
      repeat (match type of Ht with
              | (if ?c then _ else _) = _ => destruct c; [discriminate|]
              end).
      discriminate. }
    unfold getErrorType.
    rewrite (contains_mono a "timeout" pre post Hpre Ha Hpost Hc).
    reflexivity.
Qed.

End Classifier.

Section ClassifierMoreRun.
#[local] Existing Instance keepNonASCII.

Lemma contains_is_substring_modulo_case_witness :
  isASCII "dial: " = true
  /\ isASCII "TimeOut" = true
  /\ isASCII " after 5s" = true
  /\ isASCII "timeout" = true
  /\ "timeout" <> EmptyString
  /\ contains EmptyString "timeout" = false
  /\ contains "TimeOut" "timeout" = true
  /\ (exists pre post,
        lower_bytes "TimeOut" = pre +:+ lower_bytes "timeout" +:+ post)
  /\ contains (strings_ToLower "TimeOut") "timeout" = true
  /\ contains "TimeOut" (strings_ToLower "timeout") = true
  /\ contains ("dial: " +:+ "TimeOut" +:+ " after 5s") "timeout" = true.
Proof.
  pose proof (contains_is_substring_modulo_case "TimeOut" "timeout")
    as (_ & Hbytes & _ & _ & Hempty & Hleft & Hright & Hmono).
  assert (Hpre : isASCII "dial: " = true) by reflexivity.
  assert (Hs : isASCII "TimeOut" = true) by reflexivity.
  assert (Hpost : isASCII " after 5s" = true) by reflexivity.
  assert (Hsub : isASCII "timeout" = true) by reflexivity.
  assert (Hne : "timeout" <> EmptyString) by discriminate.
  assert (Hc : contains "TimeOut" "timeout" = true) by reflexivity.
  split; [exact Hpre|]. split; [exact Hs|]. split; [exact Hpost|].
  split; [exact Hsub|]. split; [exact Hne|].
  split; [exact (Hempty Hsub Hne)|]. split; [exact Hc|].
  split; [exact (proj1 (Hbytes Hs Hsub) Hc)|].
  split; [rewrite (Hleft Hs); exact Hc|].
  split; [rewrite (Hright Hsub); exact Hc|].
  exact (Hmono "dial: " " after 5s" Hpre Hs Hpost Hc).
Defined.

Lemma getErrorType_ignores_case_witness :
  strings_ToLower "Auth FAILED" = strings_ToLower "auth failed"
  /\ getErrorType (Some "Auth FAILED") = getErrorType (Some "auth failed")
  /\ isASCII "connection TIMEOUT" = true
  /\ getErrorType (Some (strings_ToLower "connection TIMEOUT"))
     = getErrorType (Some "connection TIMEOUT")
  /\ contains "connection TIMEOUT" "timeout" = true
  /\ getErrorType (Some "connection TIMEOUT") = "Timeout"
  /\ isASCII "rate: " = true
  /\ isASCII " (auth)" = true
  /\ getErrorType (Some ("rate: " +:+ "connection TIMEOUT" +:+ " (auth)"))
     = "Timeout".
Proof.
  pose proof (getErrorType_ignores_case "Auth FAILED" "auth failed")
    as (Hcase & _).
  pose proof (getErrorType_ignores_case "connection TIMEOUT" EmptyString)
    as (_ & Hlow & Hto & Hwrap).
  assert (Hl : strings_ToLower "Auth FAILED" = strings_ToLower "auth failed")
    by reflexivity.
  assert (Ha : isASCII "connection TIMEOUT" = true) by reflexivity.
  assert (Hpre : isASCII "rate: " = true) by reflexivity.
  assert (Hpost : isASCII " (auth)" = true) by reflexivity.
  assert (Hc : contains "connection TIMEOUT" "timeout" = true) by reflexivity.
  split; [exact Hl|]. split; [exact (Hcase Hl)|]. split; [exact Ha|].
  split; [exact (Hlow Ha)|]. split; [exact Hc|].
  split; [exact (Hto Hc)|]. split; [exact Hpre|]. split; [exact Hpost|].
  exact (Hwrap "rate: " " (auth)" Hpre Ha Hpost (Hto Hc)).
Defined.

End ClassifierMoreRun.

(** ** The Bedrock configuration *)

Lemma firstError_None {A} (check : A -> error) (l : list A) :
  bedrock.firstError check l = None <-> Forall (fun x => check x = None) l.
Proof.
  induction l as [|x l IH]; simpl.
  - split; [constructor|reflexivity].
  - destruct (check x) as [e|] eqn:Hx.
    + split; [discriminate|]. intros HF. apply Forall_cons in HF as [HF _].
      congruence.
    + rewrite IH. split; [intros HF; constructor; assumption|].
      intros HF. apply Forall_cons in HF as [_ HF]. exact HF.
Qed.

Lemma firstError_Some {A} (check : A -> error) (l : list A) (e : string) :
  bedrock.firstError check l = Some e -> exists x, x ∈ l /\ check x = Some e.
Proof.
  induction l as [|x l IH]; simpl; [discriminate|].
  destruct (check x) as [e'|] eqn:Hx.
  - intros [= ->]. exists x. split; [left|exact Hx].
  - intros Hl. destruct (IH Hl) as (y & Hy & Hc). exists y.
    split; [right; exact Hy|exact Hc].
Qed.

Section Bedrock.
Context `{bedrock.ModelConfigIteration}.

Lemma modelConfigs_checked (m : gmap string bedrock.ModelConfig) :
  bedrock.firstError
    (fun entry : string * bedrock.ModelConfig =>
       match bedrock.ModelConfig_Validate entry.2 with
       | Some e =>
           Some ("invalid config for model " +:+ entry.1 +:+ ": " +:+ e)
       | None => None
       end)
    (bedrock.rangeModelConfigs m) = None
  <-> (forall modelID mc, m !! modelID = Some mc ->
                          bedrock.ModelConfig_Validate mc = None).
Proof.
  rewrite firstError_None, (bedrock.rangeModelConfigs_perm m), Forall_forall.
  split.
  - intros HF modelID mc Hm.
    specialize (HF (modelID, mc)). simpl in HF.
    destruct (bedrock.ModelConfig_Validate mc); [|reflexivity].
    discriminate HF. apply elem_of_map_to_list. exact Hm.
  - intros Hall [modelID mc] Hin. apply elem_of_map_to_list in Hin.
    simpl. rewrite (Hall modelID mc Hin). reflexivity.
Qed.

Lemma bedrock_Validate_None (c : bedrock.Config) :
  bedrock.Validate c = None
  <-> bedrock.Models c <> []
      /\ Forall (fun modelID => modelID <> EmptyString) (bedrock.Models c)
      /\ (forall modelID mc,
            bedrock.ModelConfigs c !! modelID = Some mc ->
            bedrock.ModelConfig_Validate mc = None)
      /\ (forall d, bedrock.DefaultModelConfig c = Some d ->
                    bedrock.ModelConfig_Validate d = None).
Proof.
  unfold bedrock.Validate.
  destruct (decide (length (bedrock.Models c) = 0)) as [Hz|Hnz].
  { split; [discriminate|]. intros [Hne _].
    destruct (bedrock.Models c); [congruence|discriminate]. }
  assert (Hne : bedrock.Models c <> []).
  { intros Hnil. rewrite Hnil in Hnz. apply Hnz. reflexivity. }
  destruct (bedrock.firstError _ (bedrock.Models c)) as [e|] eqn:Hids.
  { split; [discriminate|]. intros (_ & Hall & _). exfalso.
    apply firstError_Some in Hids as (x & Hx & Hc).
    rewrite Forall_forall in Hall. specialize (Hall x Hx).
    destruct (String.eqb_spec x EmptyString); [congruence|discriminate]. }
  assert (Hall : Forall (fun modelID => modelID <> EmptyString)
                        (bedrock.Models c)).
  { apply firstError_None in Hids. eapply Forall_impl; [exact Hids|].
    intros x Hx. simpl in Hx.
    destruct (String.eqb_spec x EmptyString); [discriminate|assumption]. }
  pose proof (modelConfigs_checked (bedrock.ModelConfigs c)) as Hm.
  destruct (bedrock.firstError _ (bedrock.rangeModelConfigs _)) as [e|].
  { split; [discriminate|]. intros (_ & _ & Hcfg & _).
    apply Hm in Hcfg. discriminate. }
  destruct (bedrock.DefaultModelConfig c) as [d|].
  - destruct (bedrock.ModelConfig_Validate d) as [e|] eqn:Hd.
    + split; [discriminate|]. intros (_ & _ & _ & Hdef).
      specialize (Hdef d eq_refl). congruence.
    + split; [|reflexivity]. intros _. split; [exact Hne|].
      split; [exact Hall|]. split; [apply Hm; reflexivity|].
      intros d' [= <-]. exact Hd.
  - split; [|reflexivity]. intros _. split; [exact Hne|].
    split; [exact Hall|]. split; [apply Hm; reflexivity|]. discriminate.
Qed.

(** X16: the Bedrock configuration passes [Validate] exactly when it names
    at least one model, no model ID is empty, the settings of every entry of
    [ModelConfigs] pass their own check and so do the default settings if
    there are any. Acceptance does not depend on the order in which the map
    is visited. An empty list of models is reported first, whatever else is
    wrong. *)
Theorem bedrock_Validate_accepts_iff (c : bedrock.Config) :
  (bedrock.Validate c = None
   <-> bedrock.Models c <> []
       /\ Forall (fun modelID => modelID <> EmptyString) (bedrock.Models c)
       /\ (forall modelID mc,
             bedrock.ModelConfigs c !! modelID = Some mc ->
             bedrock.ModelConfig_Validate mc = None)
       /\ (forall d, bedrock.DefaultModelConfig c = Some d ->
                     bedrock.ModelConfig_Validate d = None))
  /\ (bedrock.Models c = [] ->
      bedrock.Validate c = Some "at least one model must be specified")
  /\ (bedrock.Models c <> [] -> In EmptyString (bedrock.Models c) ->
      bedrock.Validate c = Some "model ID cannot be empty").
Proof.
  split; [apply bedrock_Validate_None|].
  split.
  - intros Hnil. unfold bedrock.Validate. rewrite Hnil. reflexivity.
  - intros Hne Hin. unfold bedrock.Validate.
    rewrite decide_False by (destruct (bedrock.Models c); [congruence|discriminate]).
    assert (Hfirst : bedrock.firstError
                       (fun modelID : string =>
                          if String.eqb modelID EmptyString
                          then errors_New "model ID cannot be empty" else None)
                       (bedrock.Models c)
                     = Some "model ID cannot be empty").
    { clear Hne. induction (bedrock.Models c) as [|x l IH]; [contradiction|].
      simpl. destruct (String.eqb_spec x EmptyString); [reflexivity|].
      destruct Hin as [Hx|Hin]; [congruence|]. exact (IH Hin). }
    rewrite Hfirst. reflexivity.
Qed.

Lemma ModelConfig_Validate_None (mc : bedrock.ModelConfig) :
  bedrock.ModelConfig_Validate mc = None
  <-> (bedrock.MaxTokens mc <? 0)%Z = false
      /\ (PrimFloat.ltb (bedrock.Temperature mc) PrimFloat.zero
          || PrimFloat.ltb PrimFloat.one (bedrock.Temperature mc)) = false
      /\ (PrimFloat.ltb (bedrock.TopP mc) PrimFloat.zero
          || PrimFloat.ltb PrimFloat.one (bedrock.TopP mc)) = false.
Proof.
  unfold bedrock.ModelConfig_Validate.
  unfold PrimFloat.zero, PrimFloat.one.
  destruct (_ <? 0)%Z; [split; [discriminate|intros [? _]; discriminate]|].
  destruct (_ || _); [split; [discriminate|intros (_ & ? & _); discriminate]|].
  destruct (_ || _); [split; [discriminate|intros (_ & _ & ?); discriminate]|].
  split; auto.
Qed.

Lemma mergeWithDefaults_valid (c : bedrock.Config)
    (config : bedrock.ModelConfig) :
  bedrock.ModelConfig_Validate config = None ->
  (forall d, bedrock.DefaultModelConfig c = Some d ->
             bedrock.ModelConfig_Validate d = None) ->
  bedrock.ModelConfig_Validate (bedrock.mergeWithDefaults c config) = None.
Proof.
  intros Hcfg Hdef. unfold bedrock.mergeWithDefaults.
  destruct (bedrock.DefaultModelConfig c) as [d|]; [|exact Hcfg].
  specialize (Hdef d eq_refl).
  apply ModelConfig_Validate_None in Hcfg as (Hm & Ht & Hp).
  apply ModelConfig_Validate_None in Hdef as (Hm' & Ht' & Hp').
  apply ModelConfig_Validate_None. simpl.
  split; [destruct (_ =? 0)%Z; assumption|].
  split; [destruct (PrimFloat.eqb (bedrock.Temperature config) _); assumption|].
  destruct (PrimFloat.eqb (bedrock.TopP config) _); assumption.
Qed.

Lemma Config_ModelConfig_valid (c : bedrock.Config) (modelID : string) :
  bedrock.Validate c = None ->
  bedrock.ModelConfig_Validate (bedrock.Config_ModelConfig c modelID) = None.
Proof.
  intros Hv. apply bedrock_Validate_None in Hv as (_ & _ & Hcfgs & Hdef).
  unfold bedrock.Config_ModelConfig.
  destruct (bedrock.ModelConfigs c !! modelID) as [config|] eqn:Hm.
  - apply mergeWithDefaults_valid; [exact (Hcfgs _ _ Hm)|exact Hdef].
  - destruct (bedrock.DefaultModelConfig c) as [d|].
    + exact (Hdef d eq_refl).
    + vm_compute. reflexivity.
Qed.

(** X17: from a Bedrock configuration that passes [Validate], the settings
    looked up for any model ID pass the check of model settings, whether
    they come from the entry of the model merged with the defaults, from the
    defaults alone, or from the built-in values 4096, 0.7 and 0.9 that are
    used when the model has no entry and there are no defaults. *)
Theorem validated_config_gives_valid_model_settings (c : bedrock.Config)
    (modelID : string) :
  bedrock.Validate c = None ->
  bedrock.ModelConfig_Validate (bedrock.Config_ModelConfig c modelID) = None
  /\ (bedrock.ModelConfigs c !! modelID = None ->
      bedrock.DefaultModelConfig c = None ->
      bedrock.Config_ModelConfig c modelID
      = bedrock.mkModelConfig bedrock.DefaultMaxTokens
          bedrock.DefaultTemperature bedrock.DefaultTopP [])
  /\ (forall d, bedrock.ModelConfigs c !! modelID = None ->
                bedrock.DefaultModelConfig c = Some d ->
                bedrock.Config_ModelConfig c modelID = d).
Proof.
  intros Hv. split; [exact (Config_ModelConfig_valid c modelID Hv)|].
  unfold bedrock.Config_ModelConfig.
  split.
  - intros -> ->. reflexivity.
  - intros d -> ->. reflexivity.
Qed.

(** X18: merging model settings with the defaults treats a zero field as
    unset: a token limit of 0, a temperature or top-p equal to 0 and an
    empty list of stop sequences are replaced by the default's, every other
    field is kept, so an explicit temperature of 0 cannot override a
    default. Merging the result again changes nothing. *)
Theorem mergeWithDefaults_fills_zero_fields (c : bedrock.Config)
    (config d : bedrock.ModelConfig) :
  bedrock.DefaultModelConfig c = Some d ->
  let merged := bedrock.mergeWithDefaults c config in
  bedrock.mergeWithDefaults c merged = merged
  /\ (bedrock.MaxTokens config <> 0%Z ->
      bedrock.MaxTokens merged = bedrock.MaxTokens config)
  /\ (bedrock.MaxTokens config = 0%Z ->
      bedrock.MaxTokens merged = bedrock.MaxTokens d)
  /\ (PrimFloat.eqb (bedrock.Temperature config) PrimFloat.zero = true ->
      bedrock.Temperature merged = bedrock.Temperature d)
  /\ (PrimFloat.eqb (bedrock.Temperature config) PrimFloat.zero = false ->
      bedrock.Temperature merged = bedrock.Temperature config)
  /\ (PrimFloat.eqb (bedrock.TopP config) PrimFloat.zero = true ->
      bedrock.TopP merged = bedrock.TopP d)
  /\ (PrimFloat.eqb (bedrock.TopP config) PrimFloat.zero = false ->
      bedrock.TopP merged = bedrock.TopP config)
  /\ (bedrock.StopSequences config = [] ->
      bedrock.StopSequences merged = bedrock.StopSequences d)
  /\ (bedrock.StopSequences config <> [] ->
      bedrock.StopSequences merged = bedrock.StopSequences config).
Proof.
  intros Hd. unfold bedrock.mergeWithDefaults. rewrite Hd. cbv zeta.
  unfold PrimFloat.zero. simpl.
  split.
  - f_equal.
    + destruct (bedrock.MaxTokens config =? 0)%Z eqn:E; [|rewrite E; reflexivity].
      destruct (bedrock.MaxTokens d =? 0)%Z; reflexivity.
    + destruct (PrimFloat.eqb (bedrock.Temperature config) _) eqn:E;
        [|rewrite E; reflexivity].
      destruct (PrimFloat.eqb (bedrock.Temperature d) _); reflexivity.
    + destruct (PrimFloat.eqb (bedrock.TopP config) _) eqn:E;
        [|rewrite E; reflexivity].
      destruct (PrimFloat.eqb (bedrock.TopP d) _); reflexivity.
    + destruct (decide (length (bedrock.StopSequences config) = 0)) as [E|E].
      * destruct (decide (length (bedrock.StopSequences d) = 0)); reflexivity.
      * rewrite decide_False by exact E. reflexivity.
  - split; [intros Hnz; apply Z.eqb_neq in Hnz; rewrite Hnz; reflexivity|].
    split; [intros ->; reflexivity|].
    split; [intros ->; reflexivity|].
    split; [intros ->; reflexivity|].
    split; [intros ->; reflexivity|].
    split; [intros ->; reflexivity|].
    split; [intros ->; reflexivity|].
    intros Hne. destruct (bedrock.StopSequences config); [congruence|].
    reflexivity.
Qed.
End Bedrock.

Lemma bedrock_Validate_accepts_iff_witness :
  let empty := bedrock.mkConfig [] ∅ None in
  let blank := bedrock.mkConfig ["amazon.nova-pro-v1:0"; EmptyString] ∅ None in
  bedrock.Validate bedrock.sampleConfig = None
  /\ (forall d, bedrock.DefaultModelConfig bedrock.sampleConfig = Some d ->
                bedrock.ModelConfig_Validate d = None)
  /\ bedrock.Models empty = []
  /\ bedrock.Validate empty = Some "at least one model must be specified"
  /\ In EmptyString (bedrock.Models blank)
  /\ bedrock.Validate blank = Some "model ID cannot be empty".
Proof.
  cbv zeta.
  assert (Hv : bedrock.Validate bedrock.sampleConfig = None)
    by (vm_compute; reflexivity).
  split; [exact Hv|].
  pose proof (bedrock_Validate_accepts_iff bedrock.sampleConfig)
    as ([Hfwd _] & _).
  destruct (Hfwd Hv) as (_ & _ & _ & Hdef).
  split; [exact Hdef|].
  pose proof (bedrock_Validate_accepts_iff (bedrock.mkConfig [] ∅ None))
    as (_ & Hempty & _).
  split; [reflexivity|]. split; [exact (Hempty eq_refl)|].
  pose proof (bedrock_Validate_accepts_iff
                (bedrock.mkConfig ["amazon.nova-pro-v1:0"; EmptyString] ∅ None))
    as (_ & _ & Hblank).
  assert (Hin : In EmptyString ["amazon.nova-pro-v1:0"; EmptyString])
    by (right; left; reflexivity).
  split; [exact Hin|].
  apply Hblank; [discriminate|exact Hin].
Defined.

Lemma validated_config_gives_valid_model_settings_witness :
  let bare := bedrock.mkConfig ["meta.llama3-2-3b-instruct-v1:0"] ∅ None in
  bedrock.Validate bedrock.sampleConfig = None
  /\ bedrock.ModelConfig_Validate
       (bedrock.Config_ModelConfig bedrock.sampleConfig bedrock.sampleModelID)
     = None
  /\ bedrock.Validate bare = None
  /\ bedrock.Config_ModelConfig bare "meta.llama3-2-3b-instruct-v1:0"
     = bedrock.mkModelConfig bedrock.DefaultMaxTokens
         bedrock.DefaultTemperature bedrock.DefaultTopP [].
Proof.
  cbv zeta.
  assert (Hv : bedrock.Validate bedrock.sampleConfig = None)
    by (vm_compute; reflexivity).
  assert (Hb : bedrock.Validate
                 (bedrock.mkConfig ["meta.llama3-2-3b-instruct-v1:0"] ∅ None)
               = None) by (vm_compute; reflexivity).
  split; [exact Hv|].
  split.
  - exact (proj1 (validated_config_gives_valid_model_settings
                    bedrock.sampleConfig bedrock.sampleModelID Hv)).
  - split; [exact Hb|].
    destruct (validated_config_gives_valid_model_settings
                (bedrock.mkConfig ["meta.llama3-2-3b-instruct-v1:0"] ∅ None)
                "meta.llama3-2-3b-instruct-v1:0" Hb) as (_ & Hbuiltin & _).
    apply Hbuiltin; reflexivity.
Defined.

Lemma mergeWithDefaults_fills_zero_fields_witness :
  let c := bedrock.sampleConfig in
  exists config d,
    bedrock.ModelConfigs c !! bedrock.sampleModelID = Some config
    /\ bedrock.DefaultModelConfig c = Some d
    /\ bedrock.MaxTokens config = 0%Z
    /\ bedrock.MaxTokens (bedrock.mergeWithDefaults c config) = 1024%Z
    /\ PrimFloat.eqb (bedrock.Temperature config) PrimFloat.zero = false
    /\ bedrock.Temperature (bedrock.mergeWithDefaults c config)
       = bedrock.Temperature config
    /\ PrimFloat.eqb (bedrock.TopP config) PrimFloat.zero = true
    /\ bedrock.TopP (bedrock.mergeWithDefaults c config) = bedrock.TopP d
    /\ bedrock.StopSequences (bedrock.mergeWithDefaults c config) = ["END"].
Proof.
  cbv zeta.
  eexists _, _.
  split; [vm_compute; reflexivity|].
  split; [reflexivity|].
  match goal with
  | |- bedrock.MaxTokens ?cfg = _ /\ _ =>
      pose proof (mergeWithDefaults_fills_zero_fields bedrock.sampleConfig
                    cfg _ eq_refl)
        as (_ & _ & Hmt & _ & Ht & Hp & _ & Hs & _)
  end.
  split; [reflexivity|]. split; [exact (Hmt eq_refl)|].
  split; [reflexivity|]. split; [exact (Ht eq_refl)|].
  split; [reflexivity|]. split; [exact (Hp eq_refl)|].
  exact (Hs eq_refl).
Defined.

(** ** The plugin *)

Section Plugin.
Context {S : Type} `{bedrock.ModelConfigIteration}.

Lemma genkitaws_Validate_None (c : genkitaws.Config) :
  genkitaws.Validate c = None
  <-> genkitaws.Region c <> EmptyString
      /\ (forall b, genkitaws.Bedrock c = Some b -> bedrock.Validate b = None)
      /\ (forall m, genkitaws.CloudWatch c = Some m -> Validate m = None).
Proof.
  unfold genkitaws.Validate.
  destruct (String.eqb_spec (genkitaws.Region c) EmptyString) as [Hr|Hr].
  { split; [discriminate|]. intros [Hne _]. congruence. }
  destruct (genkitaws.Bedrock c) as [b|].
  - destruct (bedrock.Validate b) as [e|] eqn:Hb.
    + split; [discriminate|]. intros (_ & Hbv & _).
      specialize (Hbv b eq_refl). congruence.
    + destruct (genkitaws.CloudWatch c) as [m|].
      * destruct (Validate m) as [e|] eqn:Hm.
        -- split; [discriminate|]. intros (_ & _ & Hmv).
           specialize (Hmv m eq_refl). congruence.
        -- split; [|reflexivity]. intros _. split; [exact Hr|].
           split; [intros b' [= <-]; exact Hb|intros m' [= <-]; exact Hm].
      * split; [|reflexivity]. intros _. split; [exact Hr|].
        split; [intros b' [= <-]; exact Hb|discriminate].
  - destruct (genkitaws.CloudWatch c) as [m|].
    + destruct (Validate m) as [e|] eqn:Hm.
      * split; [discriminate|]. intros (_ & _ & Hmv).
        specialize (Hmv m eq_refl). congruence.
      * split; [|reflexivity]. intros _. split; [exact Hr|].
        split; [discriminate|intros m' [= <-]; exact Hm].
    + split; [|reflexivity]. intros _. split; [exact Hr|].
      split; discriminate.
Qed.

Lemma New_Some (c : genkitaws.Config) (p : genkitaws.Plugin S) (err : error) :
  genkitaws.New (Some c) = (Some p, err) ->
  err = None /\ genkitaws.Validate c = None
  /\ p = genkitaws.mkPlugin c None None.
Proof.
  unfold genkitaws.New. destruct (genkitaws.Validate c); [discriminate|].
  intros [= <- <-]. repeat split.
Qed.

(** X19: [New] returns either a plugin and nil or no plugin and an error.
    Without a configuration, or with one whose region is empty, the error is
    "invalid genkit-aws config: region is required" whatever else the
    configuration holds. [New] gives a plugin exactly when the region is not
    empty and the Bedrock and CloudWatch configurations, where present, pass
    their [Validate]; that plugin holds the configuration as given and has
    neither a Bedrock client nor a monitor yet. *)
Theorem New_validates_configuration :
  genkitaws.New (S := S) None
  = (None, Some "invalid genkit-aws config: region is required")
  /\ (forall c, genkitaws.Region c = EmptyString ->
        genkitaws.New (S := S) (Some c)
        = (None, Some "invalid genkit-aws config: region is required"))
  /\ (forall c,
        (exists p, genkitaws.New (S := S) (Some c) = (Some p, None)
                   /\ genkitaws.config p = c
                   /\ genkitaws.bedrock p = None
                   /\ genkitaws.GetMonitor p = None)
        <-> genkitaws.Region c <> EmptyString
            /\ (forall b, genkitaws.Bedrock c = Some b ->
                          bedrock.Validate b = None)
            /\ (forall m, genkitaws.CloudWatch c = Some m ->
                          Validate m = None))
  /\ (forall c p err,
        genkitaws.New (S := S) c = (p, err) ->
        (p = None <-> err <> None)).
Proof.
  split; [reflexivity|].
  split.
  { intros c Hr. unfold genkitaws.New, genkitaws.Validate. rewrite Hr.
    reflexivity. }
  split.
  { intros c. rewrite <- genkitaws_Validate_None. split.
    - intros (p & Hnew & _). apply New_Some in Hnew as (_ & Hv & _). exact Hv.
    - intros Hv. exists (genkitaws.mkPlugin c None None).
      unfold genkitaws.New. rewrite Hv. repeat split. }
  intros c p err. unfold genkitaws.New.
  destruct (genkitaws.Validate _); intros [= <- <-];
    split; congruence.
Qed.

(** X20: for a plugin that [New] accepted with a CloudWatch configuration,
    [Init] panics when the AWS configuration failed to load, and otherwise
    installs the monitor that [NewCloudWatch] builds, whose configuration
    (with defaults applied) is now also the plugin's: it is running with an
    empty buffer, reports under exactly the namespace of the configuration,
    which is not empty, its configuration passes [Validate], and its flush
    threshold is positive. *)
Theorem plugin_monitor_keeps_configured_namespace (c : genkitaws.Config)
    (p : genkitaws.Plugin S) (m : Config) (svc : S) :
  genkitaws.New (Some c) = (Some p, None) ->
  genkitaws.CloudWatch c = Some m ->
  (forall e, genkitaws.Init (svc, Some e) p = None)
  /\ exists p' cw,
       genkitaws.Init (svc, None) p = Some p'
       /\ genkitaws.GetMonitor p' = Some cw
       /\ NewCloudWatch svc m = Some (cw, None)
       /\ genkitaws.CloudWatch (genkitaws.config p') = Some (config cw)
       /\ namespace cw = Namespace m
       /\ Namespace m <> EmptyString
       /\ lifecycle cw = Running
       /\ metricBuffer cw = []
       /\ Validate (config cw) = None
       /\ (0 < MetricBufferSize (config cw))%Z.
Proof.
  intros Hnew Hm. apply New_Some in Hnew as (_ & Hv & ->).
  apply genkitaws_Validate_None in Hv as (_ & _ & Hmv).
  specialize (Hmv m Hm).
  split; [reflexivity|].
  unfold Validate in Hmv.
  destruct (String.eqb_spec (Namespace m) EmptyString) as [|Hns];
    [discriminate|].
  destruct (Z.ltb_spec (MetricBufferSize m) 0) as [|Hsz]; [discriminate|].
  pose proof (NewCloudWatch_Some svc m Hsz) as Hcw.
  assert (Hnsd : Namespace (SetDefaults m) = Namespace m).
  { unfold SetDefaults; cbn [Namespace].
    destruct (String.eqb_spec (Namespace m) EmptyString) as [|_];
      [contradiction|reflexivity]. }
  assert (Hszd : (0 < MetricBufferSize (SetDefaults m))%Z).
  { unfold SetDefaults, constants.DefaultBufferSize; cbn [MetricBufferSize].
    destruct (MetricBufferSize m =? 0)%Z eqn:Hz; [lia|].
    apply Z.eqb_neq in Hz. lia. }
  assert (Hinit : exists p',
             genkitaws.Init (svc, None) (genkitaws.mkPlugin c None None)
             = Some p'
             /\ genkitaws.GetMonitor p'
                = Some (newInstance svc (SetDefaults m))
             /\ genkitaws.CloudWatch (genkitaws.config p')
                = Some (SetDefaults m)).
  { unfold genkitaws.Init. simpl. rewrite Hm, Hcw.
    destruct (genkitaws.Bedrock c); simpl; eexists; repeat split. }
  destruct Hinit as (p' & Hp' & Hmon & Hcfg).
  exists p', (newInstance svc (SetDefaults m)).
  split; [exact Hp'|]. split; [exact Hmon|]. split; [exact Hcw|].
  split; [exact Hcfg|]. split; [exact Hnsd|]. split; [exact Hns|].
  split; [reflexivity|]. split; [reflexivity|].
  split; [|exact Hszd].
  cbn [config newInstance]. unfold Validate. rewrite Hnsd.
  destruct (String.eqb_spec (Namespace m) EmptyString) as [|_];
    [contradiction|].
  destruct (Z.ltb_spec (MetricBufferSize (SetDefaults m)) 0) as [|_];
    [lia|reflexivity].
Qed.

(** X21: for a plugin that [New] accepted with a Bedrock configuration,
    [Init] installs a client over that configuration, and every model
    handle that the client gives out, for any model ID, carries that ID and
    settings that pass the check of model settings. *)
Theorem plugin_models_have_valid_settings (c : genkitaws.Config)
    (p : genkitaws.Plugin S) (b : bedrock.Config) (svc : S) :
  genkitaws.New (Some c) = (Some p, None) ->
  genkitaws.Bedrock c = Some b ->
  exists p' client,
    genkitaws.Init (svc, None) p = Some p'
    /\ genkitaws.bedrock p' = Some client
    /\ bedrock.config client = b
    /\ forall modelID,
         bedrock.modelID (bedrock.Client_Model client modelID) = modelID
         /\ bedrock.ModelConfig_Validate
              (bedrock.modelConfig (bedrock.Client_Model client modelID))
            = None.
Proof.
  intros Hnew Hb. apply New_Some in Hnew as (_ & Hv & ->).
  apply genkitaws_Validate_None in Hv as (_ & Hbv & Hmv).
  specialize (Hbv b Hb).
  assert (Hcw : forall m, genkitaws.CloudWatch c = Some m ->
                NewCloudWatch svc m
                = Some (newInstance svc (SetDefaults m), None)).
  { intros m Hm. apply NewCloudWatch_Some. specialize (Hmv m Hm).
    unfold Validate in Hmv. destruct (String.eqb _ _); [discriminate|].
    destruct (Z.ltb_spec (MetricBufferSize m) 0) as [|Hsz];
      [discriminate|exact Hsz]. }
  unfold genkitaws.Init. simpl. rewrite Hb. simpl.
  destruct (genkitaws.CloudWatch c) as [m|]; [rewrite (Hcw m eq_refl)|];
    simpl;
    (eexists _, _; split; [reflexivity|]; split; [reflexivity|];
     split; [reflexivity|]; intros modelID; split; [reflexivity|]; simpl;
     exact (Config_ModelConfig_valid b modelID Hbv)).
Qed.
End Plugin.

Lemma New_validates_configuration_witness :
  genkitaws.Region genkitaws.zeroConfig = EmptyString
  /\ genkitaws.New (S := Script) (Some genkitaws.zeroConfig)
     = (None, Some "invalid genkit-aws config: region is required")
  /\ (exists p, genkitaws.New (S := Script) (Some sampleRegionConfig)
                = (Some p, None))
  /\ genkitaws.Region sampleRegionConfig <> EmptyString.
Proof.
  pose proof (New_validates_configuration (S := Script))
    as (_ & Hregion & Hiff & Hexcl).
  split; [reflexivity|].
  split; [exact (Hregion genkitaws.zeroConfig eq_refl)|].
  assert (Hex : exists p,
             genkitaws.New (S := Script) (Some sampleRegionConfig)
             = (Some p, None)
             /\ genkitaws.config p = sampleRegionConfig
             /\ genkitaws.bedrock p = None
             /\ genkitaws.GetMonitor p = None).
  { eexists. vm_compute. repeat split; reflexivity. }
  split; [destruct Hex as (p & Hp & _); exists p; exact Hp|].
  destruct (proj1 (Hiff sampleRegionConfig) Hex) as (Hr & _).
  exact Hr.
Defined.

Lemma plugin_monitor_keeps_configured_namespace_witness :
  exists p p' cw,
    genkitaws.New (S := Script) (Some sampleRegionConfig) = (Some p, None)
    /\ genkitaws.CloudWatch sampleRegionConfig = Some appConfig
    /\ genkitaws.Init ([Some "down"], None) p = Some p'
    /\ genkitaws.GetMonitor p' = Some cw
    /\ namespace cw = "App"
    /\ lifecycle cw = Running.
Proof.
  assert (Hnew : genkitaws.New (S := Script) (Some sampleRegionConfig)
                 = (Some (genkitaws.mkPlugin sampleRegionConfig None None),
                    None)) by (vm_compute; reflexivity).
  destruct (plugin_monitor_keeps_configured_namespace sampleRegionConfig _
              appConfig [Some "down"] Hnew eq_refl)
    as (_ & p' & cw & Hinit & Hmon & _ & _ & Hns & _ & Hlife & _).
  exists (genkitaws.mkPlugin sampleRegionConfig None None), p', cw.
  split; [exact Hnew|]. split; [reflexivity|]. split; [exact Hinit|].
  split; [exact Hmon|]. split; [exact Hns|exact Hlife].
Defined.

Lemma plugin_models_have_valid_settings_witness :
  exists p p' client,
    genkitaws.New (S := Script) (Some sampleRegionConfig) = (Some p, None)
    /\ genkitaws.Bedrock sampleRegionConfig = Some bedrock.sampleConfig
    /\ genkitaws.Init ([], None) p = Some p'
    /\ genkitaws.bedrock p' = Some client
    /\ bedrock.ModelConfig_Validate
         (bedrock.modelConfig
            (bedrock.Client_Model client "amazon.nova-lite-v1:0"))
       = None.
Proof.
  assert (Hnew : genkitaws.New (S := Script) (Some sampleRegionConfig)
                 = (Some (genkitaws.mkPlugin sampleRegionConfig None None),
                    None)) by (vm_compute; reflexivity).
  destruct (plugin_models_have_valid_settings sampleRegionConfig _
              bedrock.sampleConfig ([] : Script) Hnew eq_refl)
    as (p' & client & Hinit & Hclient & _ & Hmodels).
  exists (genkitaws.mkPlugin sampleRegionConfig None None), p', client.
  split; [exact Hnew|]. split; [reflexivity|]. split; [exact Hinit|].
  split; [exact Hclient|].
  exact (proj2 (Hmodels "amazon.nova-lite-v1:0")).
Defined.

(** ** Runs *)

Ltac in_list := apply (bool_decide_eq_true_1 _); reflexivity.

Section Runs.
Context {S : Type} `{CloudWatchAPI S} `{MapIteration} `{UnicodeFolding}.

Lemma goodPoint_built (cw : CloudWatch S) (now : Time) (metricName : string)
    (value : Z) (dimensions : gmap string string) :
  metricName ∈ metricNames ->
  (forall k, is_Some (dimensions !! k) -> k ∈ reservedKeys) ->
  goodPoint (config cw)
    (mkMetricDatum metricName value StandardUnitCount now
       (buildDimensions cw dimensions)).
Proof.
  intros Hname Hkeys. split; [exact Hname|]. split; [reflexivity|].
  intros Hfree. simpl. apply buildDimensions_NoDup. intros k Hk.
  destruct (dimensions !! k) as [v|] eqn:Hd; [|reflexivity].
  rewrite (Hfree k) in Hk; [destruct Hk; discriminate|].
  apply Hkeys. eauto.
Qed.

Lemma appendBuffer_invariant (cfg : Config) (cw : CloudWatch S)
    (ps : list MetricDatum) :
  invariant cfg cw -> Forall (goodPoint cfg) ps ->
  invariant cfg (appendBuffer ps cw).
Proof.
  intros (Hc & Hn & Hb & Hcalls) Hps. repeat split; try assumption.
  simpl. apply Forall_app. split; assumption.
Qed.

Lemma putMetric_invariant (cfg : Config) (cw : CloudWatch S) (now : Time)
    (metricName : string) (value : Z) (dimensions : list Dimension) :
  invariant cfg cw ->
  goodPoint cfg (mkMetricDatum metricName value StandardUnitCount now dimensions) ->
  invariant cfg (putMetric now metricName value dimensions cw).
Proof.
  intros Hinv Hp. unfold putMetric.
  pose proof (appendBuffer_invariant cfg cw _ Hinv
                (Forall_cons_2 _ _ _ Hp (Forall_nil_2 _))) as Hinv'.
  destruct (_ <=? _)%Z; [|exact Hinv'].
  destruct Hinv' as (Hc & Hn & Hb & Hcalls). repeat split; assumption.
Qed.

Lemma flushMetrics_invariant (cfg : Config) (cw : CloudWatch S) :
  invariant cfg cw -> invariant cfg (flushMetrics cw).2.
Proof.
  intros (Hc & Hn & Hb & Hcalls).
  pose proof (batchesFrom_sizes (metricBuffer cw) 0) as Hsizes.
  change constants.MaxMetricsPerRequest with 20 in Hsizes.
  assert (Hgood : Forall (Forall (goodPoint cfg))
                         (batchesFrom (metricBuffer cw) 0)).
  { apply Forall_forall. intros b Hin. apply Forall_forall. intros p Hp.
    rewrite Forall_forall in Hb. apply Hb.
    rewrite <- (drop_0 (metricBuffer cw)).
    rewrite <- (batchesFrom_concat (metricBuffer cw) 0).
    apply list_elem_of_In, in_concat. exists b.
    split; apply list_elem_of_In; assumption. }
  assert (Hok : forall bs,
             Forall (fun b => 0 < length b <= 20) bs ->
             Forall (Forall (goodPoint cfg)) bs ->
             Forall (goodCall cfg) (okCalls (namespace cw) bs)).
  { intros bs Hs Hg. unfold okCalls. induction bs as [|b bs IH]; simpl;
      [constructor|].
    apply Forall_cons in Hs as [Hs1 Hs2]. apply Forall_cons in Hg as [Hg1 Hg2].
    constructor; [|exact (IH Hs2 Hg2)].
    split; [exact Hn|]. split; assumption. }
  destruct (flushMetrics_outcome cw) as [Hsame Hout].
  destruct (flushMetrics cw) as [[e|] cw']; cbn [fst snd] in *.
  - destruct Hout as (sent & failed & rest & Hbs & Hcs & Hbuf).
    rewrite Hbs in Hsizes, Hgood.
    apply Forall_app in Hsizes as [Hs1 Hs2].
    apply Forall_cons in Hs2 as [Hsf _].
    apply Forall_app in Hgood as [Hg1 Hg2].
    apply Forall_cons in Hg2 as [Hgf _].
    destruct Hsame as (Hc' & Hn' & _).
    split; [congruence|]. split; [congruence|].
    split; [rewrite Hbuf; exact Hgf|].
    rewrite Hcs. apply Forall_app. split; [exact Hcalls|].
    apply Forall_app. split; [exact (Hok sent Hs1 Hg1)|].
    constructor; [|constructor].
    split; [exact Hn|]. split; assumption.
  - destruct Hout as [Hcs Hbuf]. destruct Hsame as (Hc' & Hn' & _).
    split; [congruence|]. split; [congruence|].
    split; [rewrite Hbuf; constructor|].
    rewrite Hcs. apply Forall_app. split; [exact Hcalls|].
    exact (Hok _ Hsizes Hgood).
Qed.

Lemma reserved_singleton (key value k : string) :
  key ∈ reservedKeys ->
  is_Some (({[ key := value ]} : gmap string string) !! k) ->
  k ∈ reservedKeys.
Proof.
  intros Hkey [v Hv]. apply lookup_singleton_Some in Hv as [<- _]. exact Hkey.
Qed.

Lemma reserved_insert (key value k : string) (m : gmap string string) :
  key ∈ reservedKeys ->
  (forall k', is_Some (m !! k') -> k' ∈ reservedKeys) ->
  is_Some (<[ key := value ]> m !! k) -> k ∈ reservedKeys.
Proof.
  intros Hkey Hm [v Hv]. apply lookup_insert_Some in Hv as [[<- _]|[_ Hv]];
    [exact Hkey|]. apply Hm. eauto.
Qed.

Lemma step_invariant (cfg : Config) (op : Op) (cw : CloudWatch S) :
  invariant cfg cw -> invariant cfg (step op cw).
Proof.
  intros Hinv. pose proof Hinv as (Hcfg & _).
  assert (HF : "FlowName" ∈ reservedKeys) by in_list.
  assert (HS : "Status" ∈ reservedKeys) by in_list.
  assert (HE : "ErrorType" ∈ reservedKeys) by in_list.
  assert (HM : "ModelID" ∈ reservedKeys) by in_list.
  destruct op; simpl.
  - unfold OnFlowStart. destruct (negb _); [exact Hinv|].
    apply putMetric_invariant; [exact Hinv|]. rewrite <- Hcfg.
    apply goodPoint_built; [in_list|].
    intros k. apply reserved_singleton. exact HF.
  - unfold OnFlowEnd. destruct (negb _); [exact Hinv|].
    assert (Hkeys : forall k,
               is_Some ((<[ "Status" := "Success" ]>
                           ({[ "FlowName" := flowName ]} : gmap string string))
                        !! k) -> k ∈ reservedKeys).
    { intros k. apply reserved_insert; [exact HS|].
      intros k'. apply reserved_singleton. exact HF. }
    apply putMetric_invariant;
      [apply putMetric_invariant; [exact Hinv|]|];
      rewrite <- Hcfg; apply goodPoint_built;
      solve [in_list | exact Hkeys].
  - unfold OnFlowError. destruct (negb _); [exact Hinv|].
    assert (Hkeys : forall k,
               is_Some ((<[ "ErrorType" := getErrorType err ]>
                           (<[ "Status" := "Error" ]>
                              ({[ "FlowName" := flowName ]}
                               : gmap string string))) !! k) ->
               k ∈ reservedKeys).
    { intros k. apply reserved_insert; [exact HE|].
      intros k'. apply reserved_insert; [exact HS|].
      intros k''. apply reserved_singleton. exact HF. }
    apply putMetric_invariant;
      [apply putMetric_invariant; [exact Hinv|]|];
      rewrite <- Hcfg; apply goodPoint_built;
      solve [in_list | exact Hkeys].
  - unfold OnGenerate. destruct (negb _); [exact Hinv|].
    assert (Hkeys : forall k,
               is_Some (({[ "ModelID" := modelID ]} : gmap string string) !! k)
               -> k ∈ reservedKeys).
    { intros k. apply reserved_singleton. exact HM. }
    apply putMetric_invariant;
      [apply putMetric_invariant;
       [apply putMetric_invariant; [exact Hinv|]|]|];
      rewrite <- Hcfg; apply goodPoint_built;
      solve [in_list | exact Hkeys].
  - unfold flushLoop_tick. apply flushMetrics_invariant. exact Hinv.
  - unfold runSpawnedFlush. destruct (spawnedFlushes cw); [exact Hinv|].
    apply flushMetrics_invariant.
    destruct Hinv as (Hc & Hn & Hb & Hcalls). repeat split; assumption.
  - unfold Close. destruct (stopCh cw); [|exact Hinv].
    pose proof (flushMetrics_invariant cfg (stop cw)) as Hstop.
    destruct (flushMetrics (stop cw)) as [err cw']. apply Hstop.
    destruct Hinv as (Hc & Hn & Hb & Hcalls). repeat split; assumption.
Qed.

Lemma run_invariant (cfg : Config) (ops : list Op) (cw : CloudWatch S) :
  invariant cfg cw -> invariant cfg (run ops cw).
Proof.
  revert cw. induction ops as [|op ops IH]; intros cw Hinv; [exact Hinv|].
  apply IH, step_invariant, Hinv.
Qed.

Lemma step_stays_closed (op : Op) (cw : CloudWatch S) :
  stopCh cw = ChanClosed -> stopCh (step op cw) = ChanClosed.
Proof.
  intros Hc.
  assert (Hflush : forall c : CloudWatch S,
             stopCh c = ChanClosed -> stopCh (flushMetrics c).2 = ChanClosed).
  { intros c Hcc. destruct (flushMetrics_outcome c) as [(_ & _ & _ & Hc' & _) _].
    rewrite Hc'. exact Hcc. }
  destruct op; simpl.
  - unfold OnFlowStart. destruct (negb _); [exact Hc|].
    rewrite (proj1 (proj2 (proj2 (proj2 (proj2 (putMetric_frame _ _ _ _ _)))))).
    exact Hc.
  - unfold OnFlowEnd. destruct (negb _); [exact Hc|].
    rewrite !(proj1 (proj2 (proj2 (proj2 (proj2 (putMetric_frame _ _ _ _ _)))))).
    exact Hc.
  - unfold OnFlowError. destruct (negb _); [exact Hc|].
    rewrite !(proj1 (proj2 (proj2 (proj2 (proj2 (putMetric_frame _ _ _ _ _)))))).
    exact Hc.
  - unfold OnGenerate. destruct (negb _); [exact Hc|].
    rewrite !(proj1 (proj2 (proj2 (proj2 (proj2 (putMetric_frame _ _ _ _ _)))))).
    exact Hc.
  - apply Hflush. exact Hc.
  - unfold runSpawnedFlush. destruct (spawnedFlushes cw); [exact Hc|].
    apply Hflush. exact Hc.
  - unfold Close. rewrite Hc. exact Hc.
Qed.

Lemma run_stays_closed (ops : list Op) (cw : CloudWatch S) :
  stopCh cw = ChanClosed -> stopCh (run ops cw) = ChanClosed.
Proof.
  revert cw. induction ops as [|op ops IH]; intros cw Hc; [exact Hc|].
  apply IH, step_stays_closed, Hc.
Qed.

Lemma run_app (ops1 ops2 : list Op) (cw : CloudWatch S) :
  run (ops1 ++ ops2) cw = run ops2 (run ops1 cw).
Proof. unfold run. apply fold_left_app. Qed.

(** X22: at every moment of every run of an instance that [NewCloudWatch]
    built, the configuration and the namespace are the ones it started with
    (the given configuration with defaults applied); every call made to the
    service so far was under that namespace, with at least 1 and at most 20
    points; and every point buffered or sent has one of the seven metric
    names of the hooks, so never an empty name, the unit Count, and
    pairwise different dimension keys when the custom dimensions use none
    of the keys FlowName, Status, ErrorType and ModelID. *)
Theorem every_run_keeps_the_invariant (svc : S) (c : Config) (ops : list Op)
    (cw : CloudWatch S) (err : error) :
  NewCloudWatch svc c = Some (cw, err) ->
  invariant (SetDefaults c) (run ops cw).
Proof.
  intros Hnew. apply NewCloudWatch_inv in Hnew as (_ & -> & _).
  apply run_invariant. repeat split; constructor.
Qed.

(** X23: stopping is final. Once [Close] has happened in a run, whatever
    happens afterwards, the instance is stopped, its stop channel stays
    closed and another [Close] panics. *)
Theorem stopped_instance_stays_stopped (svc : S) (c : Config)
    (before after : list Op) (cw0 : CloudWatch S) (err : error) :
  NewCloudWatch svc c = Some (cw0, err) ->
  let cw := run (before ++ DoClose :: after) cw0 in
  lifecycle cw = Stopped /\ stopCh cw = ChanClosed /\ Close cw = None.
Proof.
  intros _. clear err. revert cw0. intros start.
  cbv zeta. rewrite run_app.
  set (cw0 := run before _).
  change (run (DoClose :: after) cw0) with (run after (step DoClose cw0)).
  assert (Hclosed : stopCh (step DoClose cw0) = ChanClosed).
  { simpl. unfold Close. destruct (stopCh cw0) eqn:Hc0; [|exact Hc0].
    destruct (flushMetrics_outcome (stop cw0)) as [(_ & _ & _ & Hc' & _) _].
    destruct (flushMetrics (stop cw0)) as [err cw']. exact Hc'. }
  pose proof (run_stays_closed after _ Hclosed) as Hend.
  split; [unfold lifecycle; rewrite Hend; reflexivity|].
  split; [exact Hend|]. unfold Close. rewrite Hend. reflexivity.
Qed.
End Runs.

Section RunsOnScript.
#[local] Existing Instance keepNonASCII.

Lemma every_run_keeps_the_invariant_witness :
  let ops := [DoFlowStart 1%Z "f";
              DoFlowError 2%Z 3%Z "f" 1500000%Z (Some "request TIMEOUT");
              DoTick; DoGenerate 4%Z 5%Z 6%Z "nova" 42%Z 2000000%Z; DoClose] in
  NewCloudWatch [Some "down"] appConfig
  = Some (started appConfig [Some "down"], None)
  /\ invariant (SetDefaults appConfig)
       (run ops (started appConfig [Some "down"]))
  /\ length (calls (client (run ops (started appConfig [Some "down"])))) = 2
  /\ length (confirmed (run ops (started appConfig [Some "down"]))) = 6.
Proof.
  cbv zeta.
  assert (Hnew : NewCloudWatch [Some "down"] appConfig
                 = Some (started appConfig [Some "down"], None))
    by reflexivity.
  split; [exact Hnew|].
  split; [|split; vm_compute; reflexivity].
  exact (every_run_keeps_the_invariant [Some "down"] appConfig _ _ _ Hnew).
Defined.

Lemma stopped_instance_stays_stopped_witness :
  let cw := run ([DoFlowStart 1%Z "f"] ++ DoClose
                   :: [DoTick; DoFlowStart 2%Z "f"; DoClose])
              (started appConfig []) in
  NewCloudWatch [] appConfig = Some (started appConfig [], None)
  /\ lifecycle cw = Stopped
  /\ Close cw = None
  /\ length (metricBuffer cw) = 1.
Proof.
  cbv zeta.
  assert (Hnew : NewCloudWatch ([] : Script) appConfig
                 = Some (started appConfig [], None)) by reflexivity.
  pose proof (stopped_instance_stays_stopped ([] : Script) appConfig
                [DoFlowStart 1%Z "f"] [DoTick; DoFlowStart 2%Z "f"; DoClose]
                _ _ Hnew) as (Hlife & _ & Hclose).
  split; [exact Hnew|]. split; [exact Hlife|]. split; [exact Hclose|].
  vm_compute. reflexivity.
Defined.

End RunsOnScript.

Section Delivery.
Context {S : Type} `{CloudWatchAPI S} `{MapIteration} `{UnicodeFolding}.

Lemma step_hook_appendsOnly (op : Op) (cw : CloudWatch S) :
  isHook op = true -> appendsOnly cw (step op cw).
Proof.
  destruct op; try discriminate; intros _; simpl;
    unfold OnFlowStart, OnFlowEnd, OnFlowError, OnGenerate;
    (destruct (negb _);
     [apply appendsOnly_refl
     |repeat apply appendsOnly_putMetric; apply appendsOnly_refl]).
Qed.

Lemma flushMetrics_sublist (cw : CloudWatch S) :
  sublist (confirmed (flushMetrics cw).2 ++ metricBuffer (flushMetrics cw).2)
          (confirmed cw ++ metricBuffer cw).
Proof.
  unfold confirmed.
  destruct (flushMetrics_outcome cw) as [_ Hout].
  destruct (flushMetrics cw) as [[e|] cw']; cbn [fst snd] in *.
  - destruct Hout as (sent & failed & rest & Hb & Hc & Hbuf).
    rewrite Hc, !delivered_app, delivered_okCalls, delivered_failedCall,
      app_nil_r, concat_app, Hbuf, <- app_assoc.
    apply sublist_app; [reflexivity|].
    rewrite <- (drop_0 (metricBuffer cw)),
      <- (batchesFrom_concat (metricBuffer cw) 0), Hb, concat_app.
    apply sublist_app; [reflexivity|]. simpl.
    apply sublist_inserts_r. reflexivity.
  - destruct Hout as [Hc Hbuf].
    rewrite Hc, delivered_app, delivered_okCalls, concat_app, Hbuf,
      app_nil_r, batchesFrom_concat. reflexivity.
Qed.

Lemma step_sublist (op : Op) (cw : CloudWatch S) :
  sublist (confirmed (step op cw) ++ metricBuffer (step op cw))
          ((confirmed cw ++ metricBuffer cw) ++ hookPoints op cw).
Proof.
  unfold hookPoints. destruct (isHook op) eqn:Hhook.
  - destruct (step_hook_appendsOnly op cw Hhook)
      as (Hc & _ & _ & _ & _ & _ & Hb & _).
    unfold confirmed. rewrite Hc, Hb, <- app_assoc. reflexivity.
  - rewrite app_nil_r. destruct op; try discriminate; simpl.
    + apply flushMetrics_sublist.
    + unfold runSpawnedFlush. destruct (spawnedFlushes cw); [reflexivity|].
      apply (flushMetrics_sublist (set_spawnedFlushes n cw)).
    + unfold Close. destruct (stopCh cw); [|reflexivity].
      pose proof (flushMetrics_sublist (stop cw)) as Hs.
      destruct (flushMetrics (stop cw)) as [err cw']. exact Hs.
Qed.

Lemma run_sublist (ops : list Op) (cw : CloudWatch S) :
  sublist (confirmed (run ops cw) ++ metricBuffer (run ops cw))
          ((confirmed cw ++ metricBuffer cw) ++ submitted ops cw).
Proof.
  revert cw. induction ops as [|op ops IH]; intros cw.
  - simpl. rewrite app_nil_r. reflexivity.
  - change (run (op :: ops) cw) with (run ops (step op cw)).
    etransitivity; [apply IH|]. simpl. rewrite app_assoc.
    apply sublist_app; [apply step_sublist|reflexivity].
Qed.

(** X24: in every run of an instance that [NewCloudWatch] built, the points
    of the confirmed batches together with the points still buffered are,
    counted with their multiplicity, among the points that the hooks
    submitted: no point is confirmed more often than it was submitted, and
    no point is both confirmed and still waiting for a retry. *)
Theorem no_point_is_delivered_twice (svc : S) (c : Config) (ops : list Op)
    (start : CloudWatch S) (err : error) :
  NewCloudWatch svc c = Some (start, err) ->
  confirmed (run ops start) ++ metricBuffer (run ops start)
    ⊆+ submitted ops start.
Proof.
  intros Hnew. apply NewCloudWatch_inv in Hnew as (_ & -> & _).
  apply sublist_submseteq.
  exact (run_sublist ops (newInstance svc (SetDefaults c))).
Qed.
End Delivery.

Section DeliveryOnScript.
#[local] Existing Instance keepNonASCII.

Lemma no_point_is_delivered_twice_witness :
  let ops := [DoFlowStart 1%Z "f"; DoFlowStart 2%Z "f"; DoTick;
              DoFlowStart 3%Z "f"; DoTick; DoClose] in
  let start := started appConfig [Some "down"; None] in
  NewCloudWatch [Some "down"; None] appConfig = Some (start, None)
  /\ length (confirmed (run ops start)) = 3
  /\ metricBuffer (run ops start) = []
  /\ length (submitted ops start) = 3
  /\ confirmed (run ops start) ++ metricBuffer (run ops start)
       ⊆+ submitted ops start.
Proof.
  cbv zeta.
  assert (Hnew : NewCloudWatch [Some "down"; None] appConfig
                 = Some (started appConfig [Some "down"; None], None))
    by reflexivity.
  split; [exact Hnew|].
  split; [vm_compute; reflexivity|].
  split; [vm_compute; reflexivity|].
  split; [vm_compute; reflexivity|].
  exact (no_point_is_delivered_twice [Some "down"; None] appConfig _ _ _ Hnew).
Defined.

End DeliveryOnScript.
